(** * Autonomous Aftersales OS: the telemetry core of [app.py]

    A shallow embedding of the simulator ([generate_sensor_data]), the
    Sentinel classifier ([check_thresholds]), the three Gemini-backed agents
    with their mock fallbacks, and the service-slot generator, followed by
    the properties the specification states about them.

    Conventions.
    - A Python [str] is a list of Unicode code points ([Text.str]); literals
      are written as in the source and decoded from UTF-8 by [Text.u].
    - A Python [float] is an IEEE-754 binary64 value, [spec_float] with
      precision 53 and maximal exponent 1024.
    - A call that can raise returns a [result]; [try ... except Exception]
      is [try_except], which also collects the [st.warning] banners. *)

From Stdlib Require Import ZArith NArith List String Ascii Bool Lia.
From Stdlib Require Import Floats.SpecFloat.
Import ListNotations.

Set Warnings "-register-all".

(* ====================================================================== *)
(** * Text: Python strings as sequences of code points                    *)
(* ====================================================================== *)

Module Text.

Definition char := N.
Definition str := list char.

(** UTF-8 decoding of a well-formed byte sequence. *)
Fixpoint utf8_decode (bs : list N) : str :=
  match bs with
  | [] => []
  | b0 :: r0 =>
    if (b0 <? 128)%N then b0 :: utf8_decode r0
    else match r0 with
    | [] => [b0]
    | b1 :: r1 =>
      if (b0 <? 224)%N
      then ((b0 - 192) * 64 + (b1 - 128))%N :: utf8_decode r1
      else match r1 with
      | [] => [b0; b1]
      | b2 :: r2 =>
        if (b0 <? 240)%N
        then ((b0 - 224) * 4096 + (b1 - 128) * 64 + (b2 - 128))%N
               :: utf8_decode r2
        else match r2 with
        | [] => [b0; b1; b2]
        | b3 :: r3 =>
          ((b0 - 240) * 262144 + (b1 - 128) * 4096
           + (b2 - 128) * 64 + (b3 - 128))%N :: utf8_decode r3
        end
      end
    end
  end.

(** A source literal. *)
Definition u (s : string) : str :=
  utf8_decode (map N_of_ascii (list_ascii_of_string s)).

Definition nl : str := [10%N].   (* "\n" *)
Definition dq : str := [34%N].   (* the double quote *)

(** [a == b] *)
Fixpoint eqb (a b : str) : bool :=
  match a, b with
  | [], [] => true
  | x :: a', y :: b' => (x =? y)%N && eqb a' b'
  | _, _ => false
  end.

(** [s.startswith(p)] *)
Fixpoint startswith (p s : str) : bool :=
  match p, s with
  | [], _ => true
  | _ :: _, [] => false
  | a :: p', b :: s' => (a =? b)%N && startswith p' s'
  end.

(** [p in s] *)
Fixpoint contains (p s : str) : bool :=
  startswith p s ||
  match s with
  | [] => false
  | _ :: s' => contains p s'
  end.

(** [s.replace(old, new)] for a non-empty [old]: one left-to-right pass
    over non-overlapping occurrences.  [skip] counts the characters of the
    occurrence just matched that are still to be dropped. *)
Fixpoint replace_from (old new : str) (skip : nat) (s : str) : str :=
  match s with
  | [] => []
  | c :: s' =>
    match skip with
    | S k => replace_from old new k s'
    | O =>
      if startswith old s
      then new ++ replace_from old new (pred (List.length old)) s'
      else c :: replace_from old new 0 s'
    end
  end.

(** [s.replace(old, new)]; an empty [old] matches before every character
    and at the end. *)
Definition replace (old new s : str) : str :=
  match old with
  | [] => new ++ flat_map (fun c => c :: new) s
  | _ :: _ => replace_from old new 0 s
  end.

(** [c.isspace()]: the code points Python treats as whitespace. *)
Definition isspace (c : char) : bool :=
  ((9 <=? c) && (c <=? 13) || (28 <=? c) && (c <=? 32)
   || (c =? 133) || (c =? 160) || (c =? 5760)
   || (8192 <=? c) && (c <=? 8202)
   || (c =? 8232) || (c =? 8233) || (c =? 8239) || (c =? 8287)
   || (c =? 12288))%N.

Fixpoint lstrip (s : str) : str :=
  match s with
  | [] => []
  | c :: s' => if isspace c then lstrip s' else s
  end.

Definition rstrip (s : str) : str := rev (lstrip (rev s)).

(** [s.strip()] *)
Definition strip (s : str) : str := rstrip (lstrip s).

(** [s[:n]] *)
Definition take (n : nat) (s : str) : str := firstn n s.

Fixpoint uint_chars (d : Decimal.uint) : str :=
  match d with
  | Decimal.Nil => []
  | Decimal.D0 d => 48%N :: uint_chars d
  | Decimal.D1 d => 49%N :: uint_chars d
  | Decimal.D2 d => 50%N :: uint_chars d
  | Decimal.D3 d => 51%N :: uint_chars d
  | Decimal.D4 d => 52%N :: uint_chars d
  | Decimal.D5 d => 53%N :: uint_chars d
  | Decimal.D6 d => 54%N :: uint_chars d
  | Decimal.D7 d => 55%N :: uint_chars d
  | Decimal.D8 d => 56%N :: uint_chars d
  | Decimal.D9 d => 57%N :: uint_chars d
  end.

(** [str(n)] for a natural number. *)
Definition of_N (n : N) : str := uint_chars (N.to_uint n).

(** Decimal digits of [n], left-padded with zeros to [width]. *)
Definition zfill (width : nat) (n : N) : str :=
  let d := of_N n in
  repeat 48%N (width - List.length d) ++ d.

End Text.

Import Text.

(* ====================================================================== *)
(** * Floats: binary64                                                    *)
(* ====================================================================== *)

Module PyFloat.

Definition float := spec_float.

Definition prec : Z := 53.
Definition emax : Z := 1024.

(** Values a Python float can hold. *)
Definition valid (x : float) : bool := valid_binary prec emax x.

(** The float nearest to [m * 2^e]; the thresholds of the source are such
    values: 8.5 is [dyadic 17 (-1)], 10.5 is [dyadic 21 (-1)] and 11.5 is
    [dyadic 23 (-1)]. *)
Definition dyadic (m e : Z) : float := binary_normalize prec emax m e false.
Definition of_Z (z : Z) : float := dyadic z 0.

Definition add : float -> float -> float := SFadd prec emax.
Definition mul : float -> float -> float := SFmul prec emax.

(** [x > y], [x < y], [x <= y] *)
Definition gt (x y : float) : bool := SFltb y x.
Definition lt (x y : float) : bool := SFltb x y.
Definition le (x y : float) : bool := SFleb x y.

(** [max(a, b)]: the first argument unless the second is greater. *)
Definition max (a b : float) : float := if gt b a then b else a.

(** [|x| * 10^digits] rounded to the nearest integer, ties to even. *)
Definition scaled_round (digits : nat) (m : positive) (e : Z) : N :=
  let num := (Npos m * 10 ^ N.of_nat digits)%N in
  match e with
  | Z0 => num
  | Zpos p => (num * 2 ^ Npos p)%N
  | Zneg p =>
    let den := (2 ^ Npos p)%N in
    let q := (num / den)%N in
    let r := (num mod den)%N in
    match (2 * r ?= den)%N with
    | Lt => q
    | Gt => (q + 1)%N
    | Eq => if N.even q then q else (q + 1)%N
    end
  end.

Definition fixed (digits : nat) (n : N) : str :=
  let p := (10 ^ N.of_nat digits)%N in
  of_N (n / p) ++
  match digits with
  | O => []
  | S _ => u "." ++ zfill digits (n mod p)
  end.

Definition sign (s : bool) : str := if s then u "-" else [].

(** [format(x, ".<digits>f")] *)
Definition format_f (digits : nat) (x : float) : str :=
  match x with
  | S754_nan => u "nan"
  | S754_infinity s => sign s ++ u "inf"
  | S754_zero s => sign s ++ fixed digits 0
  | S754_finite s m e => sign s ++ fixed digits (scaled_round digits m e)
  end.

End PyFloat.

Import PyFloat.

(* ====================================================================== *)
(** * Exceptions                                                          *)
(* ====================================================================== *)

(** Subclasses of [Exception]; [str(e)] is the message. *)
Inductive exn :=
| JSONDecodeError (msg : str)
| ValueError (msg : str)
| OverflowError (msg : str)
| OtherError (msg : str).

Definition exn_str (e : exn) : str :=
  match e with
  | JSONDecodeError m | ValueError m | OverflowError m | OtherError m => m
  end.

Inductive result (A : Type) :=
| Ok (a : A)
| Raise (e : exn).

Arguments Ok {A} a.
Arguments Raise {A} e.

Definition bind {A B} (r : result A) (k : A -> result B) : result B :=
  match r with
  | Ok a => k a
  | Raise e => Raise e
  end.

Notation "x <- e ;; k" := (bind e (fun x => k))
  (at level 61, e at next level, right associativity).
Notation "' p <- e ;; k" := (bind e (fun p => k))
  (at level 61, p pattern, e at next level, right associativity).

(** What a caller observes of an agent: the value returned (or the exception
    that escaped) and the [st.warning] banners emitted on the way. *)
Definition observed (A : Type) := (result A * list str)%type.

(** [try: body  except Exception as e: handler(e)] *)
Definition try_except {A} (body : result A) (handler : exn -> observed A)
  : observed A :=
  match body with
  | Ok a => (Ok a, [])
  | Raise e => handler e
  end.

(* ====================================================================== *)
(** * Signal simulator                                                    *)
(* ====================================================================== *)

(** [np.random.normal(loc, scale)]: the random source, threading its state;
    it may refuse its arguments. *)
Record RandomSource (S : Type) := {
  normal : float -> float -> S -> result (float * S)
}.

Arguments normal {S} _ _ _ _.

Definition f0_1  : float := S754_finite false 7205759403792794 (-56). (* 0.1  *)
Definition f0_05 : float := S754_finite false 7205759403792794 (-57). (* 0.05 *)
Definition default_noise_level : float := of_Z 2.

Definition generate_sensor_data {S} (np_random : RandomSource S)
    (base_temp base_vibration base_voltage noise_level : float) (s : S)
  : result ((float * float * float) * S) :=
  '(n, s) <- normal np_random (of_Z 0) noise_level s ;;
  let temp := max (of_Z 50) (add base_temp n) in
  '(n, s) <- normal np_random (of_Z 0) (mul noise_level f0_1) s ;;
  let vibration := max (of_Z 0) (add base_vibration n) in
  '(n, s) <- normal np_random (of_Z 0) (mul noise_level f0_05) s ;;
  let voltage := max (of_Z 8) (add base_voltage n) in
  Ok ((temp, vibration, voltage), s).

(* ====================================================================== *)
(** * Sentinel: threshold classifier                                      *)
(* ====================================================================== *)

Definition check_thresholds (temp vibration voltage : float)
  : bool * list str :=
  let anomalies : list str := [] in
  let is_critical := false in
  let '(is_critical, anomalies) :=
    if gt temp (of_Z 110) then
      (true, anomalies ++ [u "🔴 CRITICAL: Engine Temperature "
                            ++ format_f 1 temp ++ u "°C (threshold: 110°C)"])
    else if gt temp (of_Z 95) then
      (is_critical, anomalies ++ [u "🟡 WARNING: Engine Temperature "
                            ++ format_f 1 temp ++ u "°C (threshold: 95°C)"])
    else (is_critical, anomalies) in
  let '(is_critical, anomalies) :=
    if gt vibration (dyadic 17 (-1)) then
      (true, anomalies ++ [u "🔴 CRITICAL: Vibration Level "
                            ++ format_f 2 vibration ++ u " (threshold: 8.5)"])
    else if gt vibration (of_Z 7) then
      (is_critical, anomalies ++ [u "🟡 WARNING: Vibration Level "
                            ++ format_f 2 vibration ++ u " (threshold: 7.0)"])
    else (is_critical, anomalies) in
  let '(is_critical, anomalies) :=
    if lt voltage (dyadic 21 (-1)) then
      (true, anomalies ++ [u "🔴 CRITICAL: Battery Voltage "
                            ++ format_f 2 voltage ++ u "V (threshold: 10.5V)"])
    else if lt voltage (dyadic 23 (-1)) then
      (is_critical, anomalies ++ [u "🟡 WARNING: Battery Voltage "
                            ++ format_f 2 voltage ++ u "V (threshold: 11.5V)"])
    else (is_critical, anomalies) in
  (is_critical, anomalies).

(** What each of the three blocks of [check_thresholds] appends. *)
Definition temperature_lines (temp : float) : list str :=
  if gt temp (of_Z 110) then
    [u "🔴 CRITICAL: Engine Temperature "
       ++ format_f 1 temp ++ u "°C (threshold: 110°C)"]
  else if gt temp (of_Z 95) then
    [u "🟡 WARNING: Engine Temperature "
       ++ format_f 1 temp ++ u "°C (threshold: 95°C)"]
  else [].

Definition vibration_lines (vibration : float) : list str :=
  if gt vibration (dyadic 17 (-1)) then
    [u "🔴 CRITICAL: Vibration Level "
       ++ format_f 2 vibration ++ u " (threshold: 8.5)"]
  else if gt vibration (of_Z 7) then
    [u "🟡 WARNING: Vibration Level "
       ++ format_f 2 vibration ++ u " (threshold: 7.0)"]
  else [].

Definition voltage_lines (voltage : float) : list str :=
  if lt voltage (dyadic 21 (-1)) then
    [u "🔴 CRITICAL: Battery Voltage "
       ++ format_f 2 voltage ++ u "V (threshold: 10.5V)"]
  else if lt voltage (dyadic 23 (-1)) then
    [u "🟡 WARNING: Battery Voltage "
       ++ format_f 2 voltage ++ u "V (threshold: 11.5V)"]
  else [].

(** The specification's view of an anomaly line: its severity is the tag it
    opens with, its signal the name that follows the tag. *)
Inductive severity := Warning | Critical.
Inductive signal := Temperature | Vibration | Voltage.

Definition severity_of (finding : str) : option severity :=
  if startswith (u "🔴 CRITICAL: ") finding then Some Critical
  else if startswith (u "🟡 WARNING: ") finding then Some Warning
  else None.


Definition names (sig : str) (finding : str) : bool :=
  startswith (u "🔴 CRITICAL: " ++ sig) finding
  || startswith (u "🟡 WARNING: " ++ sig) finding.

Definition signal_of (finding : str) : option signal :=
  if names (u "Engine Temperature ") finding then Some Temperature
  else if names (u "Vibration Level ") finding then Some Vibration
  else if names (u "Battery Voltage ") finding then Some Voltage
  else None.

Definition about (sig : signal) (finding : str) : bool :=
  match signal_of finding, sig with
  | Some Temperature, Temperature
  | Some Vibration, Vibration
  | Some Voltage, Voltage => true
  | _, _ => false
  end.

(** The table of section 4.2: the grade of one signal, critical first. *)
Definition grade (critical warning : bool) : option severity :=
  if critical then Some Critical
  else if warning then Some Warning
  else None.

Definition temperature_grade (temp : float) : option severity :=
  grade (gt temp (of_Z 110)) (gt temp (of_Z 95)).
Definition vibration_grade (vibration : float) : option severity :=
  grade (gt vibration (dyadic 17 (-1))) (gt vibration (of_Z 7)).
Definition voltage_grade (voltage : float) : option severity :=
  grade (lt voltage (dyadic 21 (-1))) (lt voltage (dyadic 23 (-1))).

Definition critical (g : option severity) : bool :=
  match g with Some Critical => true | _ => false end.

(** The findings of one signal: none, or a single line of the signal's
    grade. *)
Definition reports (sig : signal) (g : option severity) (lines : list str)
  : Prop :=
  match g with
  | None => lines = []
  | Some sev =>
    exists line, lines = [line]
                 /\ severity_of line = Some sev
                 /\ signal_of line = Some sig
  end.

(* ====================================================================== *)
(** * The text-generation capability and the json library                 *)
(* ====================================================================== *)

(** What [model.generate_content(prompt, stream=False)] hands back: an
    object that tests false, or one that tests true, whose [.text] is a
    string or raises when read. *)
Inductive response :=
| Falsy
| Truthy (text : result str).

(** [st.session_state.gemini_client_ready] and the configured SDK:
    [generate_content model_name prompt]. *)
Record Session := {
  gemini_client_ready : bool;
  generate_content : str -> str -> result response
}.

Inductive json :=
| JNull
| JBool (b : bool)
| JInt (z : Z)
| JFloat (x : float)
| JString (s : str)
| JArray (items : list json)
| JObject (fields : list (str * json)).

(** [d.get(key)] on a parsed object. *)
Definition get (d : json) (key : str) : option json :=
  match d with
  | JObject fields =>
    option_map snd (find (fun kv => Text.eqb (fst kv) key) fields)
  | _ => None
  end.

(** The two entry points of the json module the agents use:
    [json.dumps(_, indent=2)] on a list of strings and [json.loads]. *)
Record JsonLib := {
  dumps_indent2 : list str -> str;
  loads : str -> result json
}.

(* ====================================================================== *)
(** * Agent 2: mechanic (diagnosis)                                       *)
(* ====================================================================== *)

Definition mock_mechanic_diagnosis (temp vibration voltage : float)
    (anomalies : list str) : str :=
  if gt temp (of_Z 110) then
    u "🔧 Diagnosis: Engine overheating detected. Primary suspect: Failed thermostat or water pump failure. Recommend immediate inspection of cooling system. Risk Level: CRITICAL"
  else if gt vibration (dyadic 17 (-1)) then
    u "🔧 Diagnosis: Excessive vibration indicates mechanical imbalance. Likely causes: Worn engine mounts, bearing issues, or fuel injection problem. Recommend alignment check and engine inspection."
  else if lt voltage (dyadic 21 (-1)) then
    u "🔧 Diagnosis: Battery voltage critically low. Suspect: Alternator malfunction or battery cell degradation. Vehicle electrical systems at risk. Recommend battery/alternator test."
  else
    u "🔧 Diagnosis: Multiple system anomalies detected. Recommend comprehensive diagnostic scan and OBD-II analysis.".

Definition sensor_readings (temp vibration voltage : float) : str :=
  u "Sensor Readings:
- Engine Temperature: " ++ format_f 1 temp ++ u "°C
- Vibration Level: " ++ format_f 2 vibration ++ u "G
- Battery Voltage: " ++ format_f 2 voltage ++ u "V

Detected Anomalies:
".

Definition mechanic_prompt (J : JsonLib) (temp vibration voltage : float)
    (anomalies : list str) : str :=
  u "You are an automotive diagnostic AI. Analyze the following vehicle sensor data and provide a concise technical diagnosis.

" ++ sensor_readings temp vibration voltage
  ++ dumps_indent2 J anomalies ++ u "

Provide a diagnosis in 2-3 sentences identifying the most likely root cause and its impact on vehicle operation.".

Definition gemini_model : str := u "gemini-1.5-flash".

Definition call_gemini_mechanic (J : JsonLib) (st : Session)
    (temp vibration voltage : float) (anomalies : list str) : observed str :=
  if negb (gemini_client_ready st) then
    (Ok (mock_mechanic_diagnosis temp vibration voltage anomalies), [])
  else
    try_except
      (let prompt := mechanic_prompt J temp vibration voltage anomalies in
       response <- generate_content st gemini_model prompt ;;
       match response with
       | Truthy text => text
       | Falsy => Ok (mock_mechanic_diagnosis temp vibration voltage anomalies)
       end)
      (fun e =>
         (Ok (mock_mechanic_diagnosis temp vibration voltage anomalies),
          [u "Gemini API error: " ++ take 100 (exn_str e)])).

(* ====================================================================== *)
(** * Agent 3: concierge (customer message)                               *)
(* ====================================================================== *)

Definition default_customer_name : str := u "Valued Customer".

Definition mock_customer_message (diagnosis customer_name : str) : str :=
  u "Hi " ++ customer_name ++ u "," ++ nl ++ nl ++
  u "We've detected an issue with your vehicle during our proactive monitoring. Our technicians have identified a potential problem that needs attention soon. We'd like to schedule a service appointment at your earliest convenience. We're here to help! 🚗".

Definition concierge_prompt (diagnosis customer_name : str) : str :=
  u "You are a friendly and empathetic automotive customer service agent. Draft a brief, WhatsApp-style message (3-4 sentences) to inform a customer about a vehicle issue and offer immediate assistance.

Technical Diagnosis:
" ++ diagnosis ++ u "

Customer Name: " ++ customer_name ++ u "

Guidelines:
- Use a warm, professional tone
- Be honest about the issue but remain reassuring
- Mention immediate next steps (service booking)
- Keep it concise for messaging platform

Generate ONLY the message text, no additional commentary.".

Definition call_gemini_concierge (st : Session)
    (diagnosis customer_name : str) : observed str :=
  if negb (gemini_client_ready st) then
    (Ok (mock_customer_message diagnosis customer_name), [])
  else
    try_except
      (let prompt := concierge_prompt diagnosis customer_name in
       response <- generate_content st gemini_model prompt ;;
       match response with
       | Truthy text => text
       | Falsy => Ok (mock_customer_message diagnosis customer_name)
       end)
      (fun e =>
         (Ok (mock_customer_message diagnosis customer_name),
          [u "Gemini API error: " ++ take 100 (exn_str e)])).

(* ====================================================================== *)
(** * Manufacturing feedback layer                                        *)
(* ====================================================================== *)

Definition mock_manufacturing_feedback (temp vibration voltage : float)
  : json :=
  JObject
    [ (u "Root_Cause",
       JString (if gt temp (of_Z 100)
                then u "Thermal management system degradation"
                else u "Electrical subsystem performance drift"));
      (u "Defect_Cluster_ID",
       JString (if gt temp (of_Z 100)
                then u "CLUSTER_THERM_001"
                else u "CLUSTER_ELEC_002"));
      (u "Design_Improvement_Suggestion",
       JString (if gt temp (of_Z 100)
                then u "Upgrade coolant circulation pump capacity and add secondary thermal sensor redundancy"
                else u "Implement higher-capacity alternator and battery with integrated voltage regulation module")) ].

Definition manufacturing_prompt (J : JsonLib) (temp vibration voltage : float)
    (anomalies : list str) : str :=
  u "You are an automotive manufacturing quality engineer. Analyze this field failure data and generate a JSON response with improvement suggestions for design iteration.

" ++ sensor_readings temp vibration voltage
  ++ dumps_indent2 J anomalies ++ u "

Return ONLY a valid JSON object (no markdown, no explanation) with these exact fields:
{
    " ++ dq ++ u "Root_Cause" ++ dq ++ u ": " ++ dq
  ++ u "specific technical root cause" ++ dq ++ u ",
    " ++ dq ++ u "Defect_Cluster_ID" ++ dq ++ u ": " ++ dq
  ++ u "CLUSTER_XXX" ++ dq ++ u ",
    " ++ dq ++ u "Design_Improvement_Suggestion" ++ dq ++ u ": " ++ dq
  ++ u "actionable engineering improvement for next design iteration"
  ++ dq ++ u "
}".

Definition fence_json : str := u "```json".
Definition fence : str := u "```".

(** The clean-up applied to the response text before it is parsed:
    [.replace("```json", "").replace("```", "").strip()] *)
Definition clean_response (response_text : str) : str :=
  strip (replace fence [] (replace fence_json [] response_text)).

(** A payload wrapped in a json code fence, with white space [w1] and [w2]
    (line breaks, say) between the markers and the payload. *)
Definition fenced (w1 payload w2 : str) : str :=
  fence_json ++ w1 ++ payload ++ w2 ++ fence.

(** [try: return json.loads(text)  except json.JSONDecodeError: return mock];
    any other exception of the parser goes on to the outer handler. *)
Definition loads_or (J : JsonLib) (text : str) (fallback : json)
  : result json :=
  match loads J text with
  | Ok value => Ok value
  | Raise (JSONDecodeError _) => Ok fallback
  | Raise e => Raise e
  end.

Definition call_gemini_manufacturing (J : JsonLib) (st : Session)
    (temp vibration voltage : float) (anomalies : list str) : observed json :=
  if negb (gemini_client_ready st) then
    (Ok (mock_manufacturing_feedback temp vibration voltage), [])
  else
    try_except
      (let prompt := manufacturing_prompt J temp vibration voltage anomalies in
       response <- generate_content st gemini_model prompt ;;
       response_text <- match response with
                        | Truthy text => text
                        | Falsy => Ok (u "{}")
                        end ;;
       let response_text := clean_response response_text in
       loads_or J response_text
                (mock_manufacturing_feedback temp vibration voltage))
      (fun e =>
         (Ok (mock_manufacturing_feedback temp vibration voltage),
          [u "Manufacturing feedback error: " ++ take 100 (exn_str e)])).

(* ====================================================================== *)
(** * Service slots                                                       *)
(* ====================================================================== *)

Module DateTime.

#[local] Open Scope Z_scope.

(** A naive [datetime], held as the number of microseconds since
    0001-01-01 00:00:00; the type reaches up to 9999-12-31
    23:59:59.999999. *)
Definition datetime := Z.

Definition us_per_hour : Z := 3600 * 1000000.
Definition us_per_day : Z := 24 * us_per_hour.
Definition max_ordinal : Z := 3652059.          (* 9999-12-31 *)

Definition in_range (t : datetime) : bool :=
  (0 <=? t)%Z && (t <? max_ordinal * us_per_day)%Z.

(** [timedelta(hours=h)], in microseconds. *)
Definition timedelta_hours (h : Z) : Z := (h * us_per_hour)%Z.

(** [t + delta] *)
Definition plus (t : datetime) (delta : Z) : result datetime :=
  if in_range (t + delta) then Ok (t + delta)%Z
  else Raise (OverflowError (u "date value out of range")).

(** Year, month and day of the [d]-th day after 0001-01-01 in the
    proleptic Gregorian calendar. *)
Definition civil (d : Z) : Z * Z * Z :=
  let z := (d + 306)%Z in
  let era := (z / 146097)%Z in
  let doe := (z mod 146097)%Z in
  let yoe := ((doe - doe / 1460 + doe / 36524 - doe / 146096) / 365)%Z in
  let doy := (doe - (365 * yoe + yoe / 4 - yoe / 100))%Z in
  let mp := ((5 * doy + 2) / 153)%Z in
  let day := (doy - (153 * mp + 2) / 5 + 1)%Z in
  let month := (if mp <? 10 then mp + 3 else mp - 9)%Z in
  let year := (yoe + era * 400 + (if month <=? 2 then 1 else 0))%Z in
  (year, month, day).

(** The inverse: the microsecond count of a calendar date and time. *)
Definition of_civil (year month day hour minute second : Z) : datetime :=
  let y := (if month <=? 2 then year - 1 else year)%Z in
  let era := (y / 400)%Z in
  let yoe := (y mod 400)%Z in
  let mp := (if month <=? 2 then month + 9 else month - 3)%Z in
  let doy := ((153 * mp + 2) / 5 + day - 1)%Z in
  let doe := (yoe * 365 + yoe / 4 - yoe / 100 + doy)%Z in
  let d := (era * 146097 + doe - 306)%Z in
  (d * us_per_day + ((hour * 60 + minute) * 60 + second) * 1000000)%Z.

Definition day_name (weekday : Z) : str :=
  nth (Z.to_nat weekday)
      [u "Mon"; u "Tue"; u "Wed"; u "Thu"; u "Fri"; u "Sat"; u "Sun"] [].

Definition month_name (month : Z) : str :=
  nth (Z.to_nat (month - 1))
      [u "Jan"; u "Feb"; u "Mar"; u "Apr"; u "May"; u "Jun";
       u "Jul"; u "Aug"; u "Sep"; u "Oct"; u "Nov"; u "Dec"] [].

Definition two (n : Z) : str := zfill 2 (Z.to_N n).

(** [t.strftime("%a, %b %d @ %I:%M %p")] in the C locale. *)
Definition strftime_slot (t : datetime) : str :=
  let d := (t / us_per_day)%Z in
  let '(_, month, day) := civil d in
  let hour := ((t mod us_per_day) / us_per_hour)%Z in
  let minute := ((t mod us_per_hour) / 60000000)%Z in
  let hour12 := (if hour mod 12 =? 0 then 12 else hour mod 12)%Z in
  day_name (d mod 7) ++ u ", " ++ month_name month ++ u " " ++ two day
  ++ u " @ " ++ two hour12 ++ u ":" ++ two minute ++ u " "
  ++ (if hour <? 12 then u "AM" else u "PM")%Z.

End DateTime.

Import DateTime.

(** [range(lo, hi)] *)
Definition range (lo hi : Z) : list Z :=
  map (fun k => (lo + Z.of_nat k)%Z) (seq 0 (Z.to_nat (hi - lo))).

(** [now] is what [datetime.now()] reads off the clock. *)
Definition get_available_service_slots (now : datetime) : result (list str) :=
  fold_left
    (fun acc i =>
       slots <- acc ;;
       slot_time <- plus now (timedelta_hours (24 * i)) ;;
       Ok (slots ++ [strftime_slot slot_time]))
    (range 1 6)
    (Ok []).

(** The times the slots stand for. *)
Definition slot_times (now : datetime) : list datetime :=
  map (fun i => (now + timedelta_hours (24 * i))%Z) (range 1 6).

(* ====================================================================== *)
(** * Sensor history                                                      *)
(* ====================================================================== *)

(** [st.session_state.sensor_history]: four lists under the keys
    "timestamps", "temperatures", "vibrations" and "voltages". *)
Record SensorHistory := {
  timestamps : list datetime;
  temperatures : list float;
  vibrations : list float;
  voltages : list float
}.

(** [l[-n:]]: the last [n] items for a positive [n], everything for
    [n = 0] (the slice starts at index [-0]), and [l[k:]] for [n = -k]. *)
Definition last_slice {A} (n : Z) (l : list A) : list A :=
  match n with
  | Z0 => l
  | Zpos _ => skipn (List.length l - Z.to_nat n) l
  | Zneg _ => skipn (Z.to_nat (- n)) l
  end.

(** One round of the loop over the keys:
    [if len(l) > history_size: l = l[-history_size:]] *)
Definition keep_last {A} (history_size : Z) (l : list A) : list A :=
  if (Z.of_nat (List.length l) >? history_size)%Z
  then last_slice history_size l
  else l.

Definition default_history_size : Z := 60.

(** [now] is what [datetime.now()] reads off the clock. *)
Definition update_sensor_history (now : datetime) (history : SensorHistory)
    (temp vibration voltage : float) (history_size : Z) : SensorHistory :=
  let timestamps := timestamps history ++ [now] in
  let temperatures := temperatures history ++ [temp] in
  let vibrations := vibrations history ++ [vibration] in
  let voltages := voltages history ++ [voltage] in
  {| timestamps := keep_last history_size timestamps;
     temperatures := keep_last history_size temperatures;
     vibrations := keep_last history_size vibrations;
     voltages := keep_last history_size voltages |}.

(** All four lists have [n] items. *)
Definition aligned (n : nat) (history : SensorHistory) : Prop :=
  List.length (timestamps history) = n
  /\ List.length (temperatures history) = n
  /\ List.length (vibrations history) = n
  /\ List.length (voltages history) = n.

(* ====================================================================== *)
(** * Session state                                                       *)
(* ====================================================================== *)

(** The values the application keeps in [st.session_state]. *)
Inductive pyvalue :=
| PNone
| PBool (b : bool)
| PStr (s : str)
| PFloat (x : float)
| PHistory (h : SensorHistory)
| PJson (j : json).

(** [st.session_state], as the keys and values it holds. *)
Definition session_state := list (str * pyvalue).

Fixpoint lookup (key : str) (state : session_state) : option pyvalue :=
  match state with
  | [] => None
  | (k, v) :: rest => if Text.eqb k key then Some v else lookup key rest
  end.

(** [if key not in st.session_state: st.session_state[key] = value] *)
Definition set_if_absent (key : str) (value : pyvalue)
    (state : session_state) : session_state :=
  match lookup key state with
  | Some _ => state
  | None => state ++ [(key, value)]
  end.

Definition empty_history : SensorHistory :=
  {| timestamps := []; temperatures := []; vibrations := []; voltages := [] |}.

Definition initialize_session_state (state : session_state) : session_state :=
  let state := set_if_absent (u "api_key") (PStr (u "")) state in
  let state := set_if_absent (u "gemini_client_ready") (PBool false) state in
  let state := set_if_absent (u "sensor_history") (PHistory empty_history)
                 state in
  let state := set_if_absent (u "alert_triggered") (PBool false) state in
  let state := set_if_absent (u "diagnosis_result") PNone state in
  let state := set_if_absent (u "customer_message") PNone state in
  let state := set_if_absent (u "manufacturing_feedback") PNone state in
  let state := set_if_absent (u "selected_slot") PNone state in
  state.

(** The keys [initialize_session_state] looks after. *)
Definition session_keys : list str :=
  [u "api_key"; u "gemini_client_ready"; u "sensor_history";
   u "alert_triggered"; u "diagnosis_result"; u "customer_message";
   u "manufacturing_feedback"; u "selected_slot"].

(* ====================================================================== *)
(** * Configuring the client                                              *)
(* ====================================================================== *)

(** The SDK as [setup_gemini_api] meets it: whether the import succeeded,
    [genai.configure(api_key=...)], and [generate_content] of a model by
    name. *)
Record Sdk := {
  GEMINI_AVAILABLE : bool;
  configure : str -> result unit;
  sdk_generate_content : str -> str -> result response
}.

(** [bool(s)] *)
Definition truthy (s : str) : bool :=
  match s with [] => false | _ :: _ => true end.

(** The flag returned and the [st.warning] banners emitted. *)
Definition setup_gemini_api (sdk : Sdk) (api_key : str) : bool * list str :=
  if negb (GEMINI_AVAILABLE sdk) then (false, [])
  else
    let body : result bool :=
      if truthy api_key && truthy (strip api_key) then
        _ <- configure sdk api_key ;;
        _ <- sdk_generate_content sdk gemini_model (u "ping") ;;
        Ok true
      else Ok false in
    match body with
    | Ok answer => (answer, [])
    | Raise e =>
      (false,
       [u "⚠️ Gemini API Configuration Issue: " ++ take 100 (exn_str e)])
    end.

(* ====================================================================== *)
(** * What the page reads off the results                                 *)
(* ====================================================================== *)

(** [type(value).__name__] of a parsed value. *)
Definition type_name (value : json) : str :=
  match value with
  | JNull => u "NoneType"
  | JBool _ => u "bool"
  | JInt _ => u "int"
  | JFloat _ => u "float"
  | JString _ => u "str"
  | JArray _ => u "list"
  | JObject _ => u "dict"
  end.

(** [mfg_feedback.get(key, 'N/A')], as [main] reads the three insights;
    only a dict has the method. *)
Definition get_or_na (mfg_feedback : json) (key : str) : result json :=
  match mfg_feedback with
  | JObject _ =>
    Ok (match get mfg_feedback key with
        | Some value => value
        | None => JString (u "N/A")
        end)
  | _ =>
    Raise (OtherError (u "'" ++ type_name mfg_feedback
                       ++ u "' object has no attribute 'get'"))
  end.

(** The guard in front of every agent in [main]:
    [if is_critical or anomalies] *)
Definition anomaly_detected (is_critical : bool) (anomalies : list str)
  : bool :=
  is_critical || match anomalies with [] => false | _ :: _ => true end.

(** Severities in increasing order, no finding first. *)
Definition rank (g : option severity) : nat :=
  match g with
  | None => 0
  | Some Warning => 1
  | Some Critical => 2
  end.

(** The severity [check_thresholds] shows for one signal: the highest rank
    among its findings about that signal, 0 when it has none. *)
Definition severity_shown (sig : signal) (findings : list str) : nat :=
  fold_right Nat.max 0
    (map (fun line => rank (severity_of line))
         (filter (about sig) findings)).

(** The parts of a slot label: the weekday it opens with and the clock
    time it ends with. *)
Definition slot_weekday (t : datetime) : str :=
  day_name ((t / us_per_day) mod 7)%Z.

Definition slot_clock (t : datetime) : str :=
  let hour := ((t mod us_per_day) / us_per_hour)%Z in
  let minute := ((t mod us_per_hour) / 60000000)%Z in
  let hour12 := (if hour mod 12 =? 0 then 12 else hour mod 12)%Z in
  two hour12 ++ u ":" ++ two minute ++ u " "
  ++ (if hour <? 12 then u "AM" else u "PM")%Z.

(* ====================================================================== *)
(** * More fixtures                                                       *)
(* ====================================================================== *)

(** A json library that reads the empty array only. *)
Definition json_array_stub : JsonLib := {|
  dumps_indent2 := fun _ => u "[]";
  loads := fun text =>
    match text with
    | [91%N; 93%N] => Ok (JArray [])
    | _ => Raise (JSONDecodeError (u "Expecting value"))
    end
|}.

(** An SDK that accepts every key. *)
Definition sdk_accepting : Sdk := {|
  GEMINI_AVAILABLE := true;
  configure := fun _ => Ok tt;
  sdk_generate_content := fun _ _ => Ok (Truthy (Ok (u "pong")))
|}.

(** An SDK whose probe call is refused. *)
Definition sdk_refusing : Sdk := {|
  GEMINI_AVAILABLE := true;
  configure := fun _ => Ok tt;
  sdk_generate_content :=
    fun _ _ => Raise (OtherError (u "API key not valid"))
|}.

(* ====================================================================== *)
(** * Fixtures for the worked examples                                    *)
(* ====================================================================== *)

(** A json library that reads the empty object and nothing else. *)
Definition json_stub : JsonLib := {|
  dumps_indent2 := fun _ => u "[]";
  loads := fun text =>
    match text with
    | [123%N; 125%N] => Ok (JObject [])
    | _ => Raise (JSONDecodeError (u "Expecting value"))
    end
|}.

(** A session without a configured client. *)
Definition offline : Session := {|
  gemini_client_ready := false;
  generate_content := fun _ _ => Raise (OtherError (u "not configured"))
|}.

(** A configured session whose every call ends the same way. *)
Definition answering (r : result response) : Session := {|
  gemini_client_ready := true;
  generate_content := fun _ _ => r
|}.

(** A random source that replays a prepared list of samples. *)
Definition replay : RandomSource (list float) := {|
  normal := fun _ _ samples =>
    match samples with
    | x :: rest => Ok (x, rest)
    | [] => Raise (ValueError (u "no sample left"))
    end
|}.

(* ====================================================================== *)
(** * Properties                                                          *)
(* ====================================================================== *)

(** Closed goals are settled by running the definitions. *)
Ltac evaluate := vm_compute; reflexivity.

(** ** Float comparison *)

Lemma SFcompare_swap (x y : float) :
  SFcompare y x = option_map CompOpp (SFcompare x y).
Proof.
  destruct x as [sx|sx| |sx mx ex], y as [sy|sy| |sy my ey]; simpl;
    try reflexivity; try (destruct sx; reflexivity);
    try (destruct sy; reflexivity);
    try (destruct sx, sy; reflexivity).
  destruct sx, sy; simpl; try reflexivity;
    rewrite (Z.compare_antisym ex ey);
    destruct (ex ?= ey)%Z; simpl; try reflexivity;
    rewrite !Pos.compare_cont_spec; simpl;
    rewrite (Pos.compare_antisym mx my);
    destruct (mx ?= my)%positive; reflexivity.
Qed.

Lemma le_not_gt (x y : float) : le x y = true -> gt x y = false.
Proof.
  unfold le, gt, SFleb, SFltb. rewrite (SFcompare_swap x y).
  destruct (SFcompare x y) as [[ | | ]|]; simpl; congruence.
Qed.

Lemma gt_le (x y : float) : gt x y = true -> le y x = true.
Proof.
  unfold le, gt, SFleb, SFltb.
  destruct (SFcompare y x) as [[ | | ]|]; congruence.
Qed.

(** ** Reading the anomaly lines *)

Lemma line_critical_temperature (x : str) :
  let line := u "🔴 CRITICAL: Engine Temperature " ++ x in
  severity_of line = Some Critical /\ signal_of line = Some Temperature.
Proof. split; reflexivity. Qed.

Lemma line_warning_temperature (x : str) :
  let line := u "🟡 WARNING: Engine Temperature " ++ x in
  severity_of line = Some Warning /\ signal_of line = Some Temperature.
Proof. split; reflexivity. Qed.

Lemma line_critical_vibration (x : str) :
  let line := u "🔴 CRITICAL: Vibration Level " ++ x in
  severity_of line = Some Critical /\ signal_of line = Some Vibration.
Proof. split; reflexivity. Qed.

Lemma line_warning_vibration (x : str) :
  let line := u "🟡 WARNING: Vibration Level " ++ x in
  severity_of line = Some Warning /\ signal_of line = Some Vibration.
Proof. split; reflexivity. Qed.

Lemma line_critical_voltage (x : str) :
  let line := u "🔴 CRITICAL: Battery Voltage " ++ x in
  severity_of line = Some Critical /\ signal_of line = Some Voltage.
Proof. split; reflexivity. Qed.

Lemma line_warning_voltage (x : str) :
  let line := u "🟡 WARNING: Battery Voltage " ++ x in
  severity_of line = Some Warning /\ signal_of line = Some Voltage.
Proof. split; reflexivity. Qed.

(** ** The classifier, block by block *)

Lemma check_thresholds_split (temp vibration voltage : float) :
  check_thresholds temp vibration voltage =
  (critical (temperature_grade temp)
   || critical (vibration_grade vibration)
   || critical (voltage_grade voltage),
   temperature_lines temp ++ vibration_lines vibration
   ++ voltage_lines voltage).
Proof.
  unfold check_thresholds, temperature_grade, vibration_grade, voltage_grade,
    temperature_lines, vibration_lines, voltage_lines, grade.
  destruct (gt temp (of_Z 110)); [|destruct (gt temp (of_Z 95))];
    (destruct (gt vibration (dyadic 17 (-1)));
       [|destruct (gt vibration (of_Z 7))]);
    (destruct (lt voltage (dyadic 21 (-1)));
       [|destruct (lt voltage (dyadic 23 (-1)))]);
    reflexivity.
Qed.

Lemma temperature_lines_report (temp : float) :
  reports Temperature (temperature_grade temp) (temperature_lines temp).
Proof.
  unfold temperature_grade, temperature_lines, grade, reports.
  destruct (gt temp (of_Z 110)); [|destruct (gt temp (of_Z 95))].
  - eexists; split; [reflexivity|]. apply line_critical_temperature.
  - eexists; split; [reflexivity|]. apply line_warning_temperature.
  - reflexivity.
Qed.

Lemma vibration_lines_report (vibration : float) :
  reports Vibration (vibration_grade vibration) (vibration_lines vibration).
Proof.
  unfold vibration_grade, vibration_lines, grade, reports.
  destruct (gt vibration (dyadic 17 (-1))); [|destruct (gt vibration (of_Z 7))].
  - eexists; split; [reflexivity|]. apply line_critical_vibration.
  - eexists; split; [reflexivity|]. apply line_warning_vibration.
  - reflexivity.
Qed.

Lemma voltage_lines_report (voltage : float) :
  reports Voltage (voltage_grade voltage) (voltage_lines voltage).
Proof.
  unfold voltage_grade, voltage_lines, grade, reports.
  destruct (lt voltage (dyadic 21 (-1)));
    [|destruct (lt voltage (dyadic 23 (-1)))].
  - eexists; split; [reflexivity|]. apply line_critical_voltage.
  - eexists; split; [reflexivity|]. apply line_warning_voltage.
  - reflexivity.
Qed.

(** Lines of one signal say nothing about another signal. *)
Lemma reports_filter (sig sig' : signal) (g : option severity)
    (lines : list str) :
  reports sig g lines ->
  filter (about sig') lines =
  if about sig' (hd [] lines) then lines else [].
Proof.
  destruct g as [sev|]; simpl.
  - intros (line & -> & _ & _). simpl. destruct (about sig' line); reflexivity.
  - intros ->. simpl. destruct (about sig' []); reflexivity.
Qed.

Lemma reports_about (sig sig' : signal) (g : option severity)
    (lines : list str) :
  reports sig g lines -> sig <> sig' -> filter (about sig') lines = [].
Proof.
  destruct g as [sev|]; simpl.
  - intros (line & -> & _ & Hsig) Hne. simpl. unfold about. rewrite Hsig.
    destruct sig, sig'; try reflexivity; congruence.
  - intros -> _. reflexivity.
Qed.

(** A signal's lines hold a critical one exactly when its grade is
    critical. *)
Lemma reports_critical (sig : signal) (g : option severity)
    (lines : list str) :
  reports sig g lines ->
  (critical g = true <->
   exists line, In line lines /\ severity_of line = Some Critical).
Proof.
  destruct g as [sev|]; simpl.
  - intros (line & -> & Hsev & _). split.
    + destruct sev; [discriminate|]. intros _. exists line. simpl. auto.
    + intros (l & [<-|[]] & Hl). rewrite Hsev in Hl.
      destruct sev; [discriminate|reflexivity].
  - intros ->. split; [discriminate|]. intros (l & [] & _).
Qed.

(** C1. [check_thresholds] looks at temperature, then vibration, then
    voltage; each signal contributes no line or a single line, a critical
    one when its critical threshold is crossed (temperature > 110,
    vibration > 8.5, voltage < 10.5) and otherwise a warning when its warning
    threshold is crossed (temperature > 95, vibration > 7.0, voltage < 11.5);
    [is_critical] is the disjunction of the three critical conditions.  In
    particular a temperature above 110 puts a critical temperature line
    first, and a temperature in (95, 110] yields exactly one temperature
    line, a warning, with [is_critical] decided by the other two signals. *)
Theorem check_thresholds_order_and_precedence
    (temp vibration voltage : float) :
  let is_critical := fst (check_thresholds temp vibration voltage) in
  let findings := snd (check_thresholds temp vibration voltage) in
  (exists ft fv fb,
      findings = ft ++ fv ++ fb
      /\ reports Temperature (temperature_grade temp) ft
      /\ reports Vibration (vibration_grade vibration) fv
      /\ reports Voltage (voltage_grade voltage) fb)
  /\ is_critical =
     gt temp (of_Z 110) || gt vibration (dyadic 17 (-1))
     || lt voltage (dyadic 21 (-1))
  /\ (gt temp (of_Z 110) = true ->
      is_critical = true
      /\ exists line rest,
           findings = line :: rest
           /\ severity_of line = Some Critical
           /\ signal_of line = Some Temperature)
  /\ (gt temp (of_Z 95) = true -> le temp (of_Z 110) = true ->
      (exists line,
           filter (about Temperature) findings = [line]
           /\ severity_of line = Some Warning)
      /\ is_critical =
         gt vibration (dyadic 17 (-1)) || lt voltage (dyadic 21 (-1))).
Proof.
  cbv zeta. rewrite check_thresholds_split. cbn [fst snd].
  pose proof (temperature_lines_report temp) as Ht.
  pose proof (vibration_lines_report vibration) as Hv.
  pose proof (voltage_lines_report voltage) as Hb.
  assert (Hcrit : forall c w, critical (grade c w) = c)
    by (intros [] []; reflexivity).
  rewrite (Hcrit _ _ : critical (temperature_grade temp) = _),
    (Hcrit _ _ : critical (vibration_grade vibration) = _),
    (Hcrit _ _ : critical (voltage_grade voltage) = _).
  split; [|split; [|split]].
  - exists (temperature_lines temp), (vibration_lines vibration),
      (voltage_lines voltage). repeat split; assumption.
  - reflexivity.
  - intros Hhot. split; [rewrite Hhot; reflexivity|].
    unfold temperature_lines. rewrite Hhot. cbn [app].
    do 2 eexists. split; [reflexivity|]. apply line_critical_temperature.
  - intros Hwarm Hle. apply le_not_gt in Hle.
    split; [|rewrite Hle; reflexivity].
    rewrite !filter_app.
    rewrite (reports_about Vibration Temperature _ _ Hv) by discriminate.
    rewrite (reports_about Voltage Temperature _ _ Hb) by discriminate.
    unfold temperature_lines. rewrite Hle, Hwarm. cbn [filter app].
    destruct (line_warning_temperature
                (format_f 1 temp ++ u "°C (threshold: 95°C)")) as [Hs Hg].
    unfold about at 1. cbv zeta in Hg. rewrite Hg.
    eexists. split; [reflexivity|exact Hs].
Qed.

Lemma check_thresholds_order_and_precedence_witness :
  gt (of_Z 100) (of_Z 95) = true /\ le (of_Z 100) (of_Z 110) = true
  /\ gt (of_Z 115) (of_Z 110) = true
  /\ fst (check_thresholds (of_Z 100) (of_Z 2) (of_Z 13)) = false
  /\ fst (check_thresholds (of_Z 115) (of_Z 2) (of_Z 13)) = true.
Proof.
  split; [reflexivity|]. split; [reflexivity|]. split; [reflexivity|].
  split.
  - destruct (check_thresholds_order_and_precedence
                (of_Z 100) (of_Z 2) (of_Z 13)) as (_ & _ & _ & H).
    destruct (H eq_refl eq_refl) as [_ ->]. reflexivity.
  - destruct (check_thresholds_order_and_precedence
                (of_Z 115) (of_Z 2) (of_Z 13)) as (_ & _ & H & _).
    destruct (H eq_refl) as [-> _]. reflexivity.
Defined.

(** C2. The verdict of [check_thresholds] is critical exactly when one of
    its findings carries the critical tag; a verdict whose findings are all
    warnings, or that has no finding, is not critical. *)
Theorem is_critical_iff_critical_finding (temp vibration voltage : float) :
  let is_critical := fst (check_thresholds temp vibration voltage) in
  let findings := snd (check_thresholds temp vibration voltage) in
  (is_critical = true <->
   exists line, In line findings /\ severity_of line = Some Critical)
  /\ (Forall (fun line => severity_of line = Some Warning) findings ->
      is_critical = false).
Proof.
  cbv zeta. rewrite check_thresholds_split. cbn [fst snd].
  pose proof (reports_critical _ _ _ (temperature_lines_report temp)) as Ht.
  pose proof (reports_critical _ _ _ (vibration_lines_report vibration)) as Hv.
  pose proof (reports_critical _ _ _ (voltage_lines_report voltage)) as Hb.
  match goal with |- ?A /\ _ => assert (Hiff : A) end.
  { rewrite !orb_true_iff, Ht, Hv, Hb. split.
    - intros [[(l & Hin & Hl)|(l & Hin & Hl)]|(l & Hin & Hl)];
        exists l; (split; [|exact Hl]); rewrite !in_app_iff; auto.
    - intros (l & Hin & Hl). rewrite !in_app_iff in Hin.
      destruct Hin as [Hin|[Hin|Hin]];
        [left; left|left; right|right]; exists l; split; assumption. }
  split; [exact Hiff|].
  intros Hall.
  apply not_true_is_false. intros Hb'.
  apply Hiff in Hb'. destruct Hb' as (l & Hin & Hl).
  rewrite Forall_forall in Hall. apply Hall in Hin. congruence.
Qed.

Lemma is_critical_iff_critical_finding_witness :
  fst (check_thresholds (of_Z 100) (of_Z 8) (of_Z 11)) = false.
Proof.
  apply (is_critical_iff_critical_finding (of_Z 100) (of_Z 8) (of_Z 11)).
  repeat constructor.
Defined.

(** ** Fallback templates on fixed readings *)


(** C4. Without a configured client, the diagnosis stage on the reading
    (115, 2, 13) returns the overheating/thermostat template and the
    manufacturing stage returns the thermal-cluster record, whatever the
    anomaly list and the json library. *)
Theorem fallback_on_hot_reading (J : JsonLib) (st : Session)
    (anomalies : list str) :
  gemini_client_ready st = false ->
  call_gemini_mechanic J st (of_Z 115) (of_Z 2) (of_Z 13) anomalies =
  (Ok (u "🔧 Diagnosis: Engine overheating detected. Primary suspect: Failed thermostat or water pump failure. Recommend immediate inspection of cooling system. Risk Level: CRITICAL"),
   [])
  /\ exists record,
       call_gemini_manufacturing J st (of_Z 115) (of_Z 2) (of_Z 13) anomalies
       = (Ok record, [])
       /\ record =
          JObject
            [(u "Root_Cause",
              JString (u "Thermal management system degradation"));
             (u "Defect_Cluster_ID", JString (u "CLUSTER_THERM_001"));
             (u "Design_Improvement_Suggestion",
              JString (u "Upgrade coolant circulation pump capacity and add secondary thermal sensor redundancy"))]
       /\ get record (u "Root_Cause") =
          Some (JString (u "Thermal management system degradation"))
       /\ get record (u "Defect_Cluster_ID") =
          Some (JString (u "CLUSTER_THERM_001")).
Proof.
  intros Hoff.
  unfold call_gemini_mechanic, call_gemini_manufacturing.
  rewrite Hoff. cbn [negb]. split.
  - reflexivity.
  - eexists. split; [reflexivity|]. repeat split; reflexivity.
Qed.

Lemma fallback_on_hot_reading_witness :
  fst (call_gemini_mechanic json_stub offline (of_Z 115) (of_Z 2) (of_Z 13) [])
  = Ok (mock_mechanic_diagnosis (of_Z 115) (of_Z 2) (of_Z 13) []).
Proof.
  rewrite (proj1 (fallback_on_hot_reading json_stub offline [] eq_refl)).
  vm_compute. reflexivity.
Defined.

(** C9. The customer-message fallback ignores the diagnosis: for any two
    diagnoses and one customer name it produces the same text, a greeting
    that names the customer followed by a fixed body that asks to schedule a
    service appointment; so does the concierge stage when no client is
    configured. *)
Theorem customer_fallback_ignores_diagnosis
    (d1 d2 customer_name : str) :
  mock_customer_message d1 customer_name =
  mock_customer_message d2 customer_name
  /\ (exists body,
        mock_customer_message d1 customer_name =
        u "Hi " ++ customer_name ++ u "," ++ nl ++ nl ++ body
        /\ contains (u "schedule a service appointment") body = true
        /\ forall d name,
             mock_customer_message d name =
             u "Hi " ++ name ++ u "," ++ nl ++ nl ++ body)
  /\ (forall st,
        gemini_client_ready st = false ->
        call_gemini_concierge st d1 customer_name =
        call_gemini_concierge st d2 customer_name).
Proof.
  split; [reflexivity|]. split.
  - eexists. split; [reflexivity|]. split; [|reflexivity].
    vm_compute. reflexivity.
  - intros st Hoff. unfold call_gemini_concierge. rewrite Hoff. reflexivity.
Qed.

Lemma customer_fallback_ignores_diagnosis_witness :
  call_gemini_concierge offline (u "Engine overheating") default_customer_name
  = call_gemini_concierge offline (u "Battery low") default_customer_name.
Proof.
  apply (customer_fallback_ignores_diagnosis
           (u "Engine overheating") (u "Battery low") default_customer_name).
  reflexivity.
Defined.

(** ** The three agents and the capability *)

(** C3 does not hold as worded for empty responses.  An empty text and a
    falsy response are not replaced by the template:
    the diagnosis and concierge stages hand an empty response text back as
    it is, and the manufacturing stage parses a falsy response as the text
    of an empty object. *)
Lemma empty_response_is_returned_as_is :
  let hot := of_Z 115 in
  let empty_text := answering (Ok (Truthy (Ok []))) in
  let no_response := answering (Ok Falsy) in
  call_gemini_mechanic json_stub empty_text hot (of_Z 2) (of_Z 13) []
  = (Ok [], [])
  /\ mock_mechanic_diagnosis hot (of_Z 2) (of_Z 13) [] <> []
  /\ call_gemini_concierge empty_text [] default_customer_name = (Ok [], [])
  /\ mock_customer_message [] default_customer_name <> []
  /\ call_gemini_manufacturing json_stub no_response hot (of_Z 2) (of_Z 13) []
     = (Ok (JObject []), [])
  /\ mock_manufacturing_feedback hot (of_Z 2) (of_Z 13) <> JObject [].
Proof.
  cbv zeta.
  split; [evaluate|]. split; [vm_compute; discriminate|].
  split; [evaluate|]. split; [vm_compute; discriminate|].
  split; [evaluate|]. vm_compute; discriminate.
Qed.

Lemma clean_empty_object : clean_response (u "{}") = u "{}".
Proof. evaluate. Qed.

(** C3, as the code has it.  Whatever the capability does, no stage lets
    an error out.  Each stage returns a usable result when the capability
    fails, by answering with its deterministic template: when no client is
    configured, when the call raises and when reading the response text
    raises; the diagnosis and concierge stages also when the response
    object is falsy, and the manufacturing stage also when the response
    text, once cleaned, is not parseable.  The diagnosis and concierge
    stages test the response object and not its text: the text of a
    response that tests true is returned as it is, the empty text
    included. *)
Theorem stages_absorb_capability_failures
    (J : JsonLib) (st : Session) (temp vibration voltage : float)
    (anomalies : list str) (diagnosis customer_name : str) :
  let A := call_gemini_mechanic J st temp vibration voltage anomalies in
  let B := call_gemini_concierge st diagnosis customer_name in
  let C := call_gemini_manufacturing J st temp vibration voltage anomalies in
  let mockA := mock_mechanic_diagnosis temp vibration voltage anomalies in
  let mockB := mock_customer_message diagnosis customer_name in
  let mockC := mock_manufacturing_feedback temp vibration voltage in
  let askA := generate_content st gemini_model
                (mechanic_prompt J temp vibration voltage anomalies) in
  let askB := generate_content st gemini_model
                (concierge_prompt diagnosis customer_name) in
  let askC := generate_content st gemini_model
                (manufacturing_prompt J temp vibration voltage anomalies) in
  (* nothing escapes *)
  ((exists a, fst A = Ok a) /\ (exists b, fst B = Ok b)
   /\ (exists c, fst C = Ok c))
  (* no client configured *)
  /\ (gemini_client_ready st = false ->
      A = (Ok mockA, []) /\ B = (Ok mockB, []) /\ C = (Ok mockC, []))
  /\ (gemini_client_ready st = true ->
      (* the call raises, or reading the text raises *)
      (forall e, askA = Raise e \/ askA = Ok (Truthy (Raise e)) ->
         A = (Ok mockA, [u "Gemini API error: " ++ take 100 (exn_str e)]))
      /\ (forall e, askB = Raise e \/ askB = Ok (Truthy (Raise e)) ->
         B = (Ok mockB, [u "Gemini API error: " ++ take 100 (exn_str e)]))
      /\ (forall e, askC = Raise e \/ askC = Ok (Truthy (Raise e)) ->
         C = (Ok mockC,
              [u "Manufacturing feedback error: " ++ take 100 (exn_str e)]))
      (* a falsy response, in the first two stages *)
      /\ (askA = Ok Falsy -> A = (Ok mockA, []))
      /\ (askB = Ok Falsy -> B = (Ok mockB, []))
      (* a response with a text, in the first two stages *)
      /\ (forall text, askA = Ok (Truthy (Ok text)) -> A = (Ok text, []))
      /\ (forall text, askB = Ok (Truthy (Ok text)) -> B = (Ok text, []))
      (* a text that does not parse, in the manufacturing stage *)
      /\ (forall text e,
            askC = Ok (Truthy (Ok text)) ->
            loads J (clean_response text) = Raise e ->
            fst C = Ok mockC)).
Proof.
  cbv zeta.
  unfold call_gemini_mechanic, call_gemini_concierge,
    call_gemini_manufacturing, loads_or.
  split; [|split].
  - destruct (gemini_client_ready st); cbn [negb].
    + split; [|split].
      * destruct (generate_content st gemini_model (mechanic_prompt _ _ _ _ _))
          as [[|[text|e]]|e]; cbn; eauto.
      * destruct (generate_content st gemini_model (concierge_prompt _ _))
          as [[|[text|e]]|e]; cbn; eauto.
      * destruct (generate_content st gemini_model
                    (manufacturing_prompt _ _ _ _ _))
          as [[|[text|e]]|e]; cbn [bind try_except fst]; eauto;
          match goal with
          | |- context [loads J ?t] =>
            destruct (loads J t) as [v|[m|m|m|m]]; cbn; eauto
          end.
    + cbn [fst]. split; [|split]; eexists; reflexivity.
  - intros ->. cbn [negb]. auto.
  - intros ->. cbn [negb].
    repeat match goal with |- _ /\ _ => split end.
    + intros e [-> | ->]; reflexivity.
    + intros e [-> | ->]; reflexivity.
    + intros e [-> | ->]; reflexivity.
    + intros ->; reflexivity.
    + intros ->; reflexivity.
    + intros text ->; reflexivity.
    + intros text ->; reflexivity.
    + intros text e -> He. cbn [bind try_except]. rewrite He.
      destruct e; reflexivity.
Qed.

Lemma stages_absorb_capability_failures_witness :
  fst (call_gemini_mechanic json_stub
         (answering (Raise (OtherError (u "quota exceeded"))))
         (of_Z 115) (of_Z 2) (of_Z 13) [])
  = Ok (mock_mechanic_diagnosis (of_Z 115) (of_Z 2) (of_Z 13) [])
  /\ fst (call_gemini_manufacturing json_stub
            (answering (Ok (Truthy (Ok (u "not json")))))
            (of_Z 115) (of_Z 2) (of_Z 13) [])
     = Ok (mock_manufacturing_feedback (of_Z 115) (of_Z 2) (of_Z 13))
  /\ fst (call_gemini_concierge offline [] default_customer_name)
     = Ok (mock_customer_message [] default_customer_name).
Proof.
  destruct (stages_absorb_capability_failures json_stub
              (answering (Raise (OtherError (u "quota exceeded"))))
              (of_Z 115) (of_Z 2) (of_Z 13) [] [] default_customer_name)
    as (_ & _ & Hon).
  destruct (Hon eq_refl) as (HA & _).
  destruct (stages_absorb_capability_failures json_stub
              (answering (Ok (Truthy (Ok (u "not json")))))
              (of_Z 115) (of_Z 2) (of_Z 13) [] [] default_customer_name)
    as (_ & _ & Hon').
  destruct (Hon' eq_refl) as (_ & _ & _ & _ & _ & _ & _ & HC).
  destruct (stages_absorb_capability_failures json_stub offline
              (of_Z 115) (of_Z 2) (of_Z 13) [] [] default_customer_name)
    as (_ & Hoff & _).
  destruct (Hoff eq_refl) as (_ & HB & _).
  split; [|split].
  - rewrite (HA _ (or_introl eq_refl)). reflexivity.
  - apply (HC (u "not json") (JSONDecodeError (u "Expecting value")));
      [reflexivity | evaluate].
  - rewrite HB. reflexivity.
Defined.

(** ** The simulator *)

Lemma max_lower_bound (a b : float) :
  le a a = true -> le a (max a b) = true.
Proof.
  intros Ha. unfold max. destruct (gt b a) eqn:Hgt.
  - apply gt_le. exact Hgt.
  - exact Ha.
Qed.

(** C6. Whatever the baseline, the noise level and the random source: when
    the source yields the samples [n1], [n2], [n3] for the scales
    [noise_level], [noise_level * 0.1] and [noise_level * 0.05], drawn in
    that order, the simulator returns
    [max(50, base_temp + n1)], [max(0, base_vibration + n2)] and
    [max(8, base_voltage + n3)]; so temperature >= 50, vibration >= 0 and
    voltage >= 8. *)
Theorem generate_sensor_data_bounds
    (S : Type) (np_random : RandomSource S)
    (base_temp base_vibration base_voltage noise_level : float)
    (s0 s1 s2 s3 : S) (n1 n2 n3 : float) :
  normal np_random (of_Z 0) noise_level s0 = Ok (n1, s1) ->
  normal np_random (of_Z 0) (mul noise_level f0_1) s1 = Ok (n2, s2) ->
  normal np_random (of_Z 0) (mul noise_level f0_05) s2 = Ok (n3, s3) ->
  exists temp vibration voltage,
    generate_sensor_data np_random base_temp base_vibration base_voltage
      noise_level s0 = Ok ((temp, vibration, voltage), s3)
    /\ temp = max (of_Z 50) (add base_temp n1)
    /\ vibration = max (of_Z 0) (add base_vibration n2)
    /\ voltage = max (of_Z 8) (add base_voltage n3)
    /\ le (of_Z 50) temp = true
    /\ le (of_Z 0) vibration = true
    /\ le (of_Z 8) voltage = true.
Proof.
  intros H1 H2 H3. unfold generate_sensor_data.
  rewrite H1. cbn [bind]. rewrite H2. cbn [bind]. rewrite H3. cbn [bind].
  do 3 eexists. split; [reflexivity|].
  split; [reflexivity|]. split; [reflexivity|]. split; [reflexivity|].
  split; [|split]; apply max_lower_bound; evaluate.
Qed.

Lemma generate_sensor_data_bounds_witness :
  exists temp vibration voltage,
    generate_sensor_data replay (of_Z 90) (of_Z 3) (of_Z 13)
      default_noise_level [SFopp (of_Z 45); SFopp (of_Z 4); S754_nan]
    = Ok ((temp, vibration, voltage), [])
    /\ temp = of_Z 50 /\ vibration = of_Z 0 /\ voltage = of_Z 8.
Proof.
  destruct (generate_sensor_data_bounds (list float) replay
              (of_Z 90) (of_Z 3) (of_Z 13) default_noise_level
              [SFopp (of_Z 45); SFopp (of_Z 4); S754_nan]
              [SFopp (of_Z 4); S754_nan] [S754_nan] []
              (SFopp (of_Z 45)) (SFopp (of_Z 4)) S754_nan
              eq_refl eq_refl eq_refl)
    as (t & v & b & Hrun & -> & -> & -> & _).
  do 3 eexists. split; [exact Hrun|]. split; [evaluate|].
  split; evaluate.
Defined.

(** ** Service slots *)

Lemma in_range_between (t a b : Z) :
  in_range t = true -> in_range (t + b)%Z = true ->
  (0 <= a <= b)%Z -> in_range (t + a)%Z = true.
Proof.
  unfold in_range. rewrite !andb_true_iff, !Z.leb_le, !Z.ltb_lt. lia.
Qed.

(** C7 does not hold at the end of the [datetime] range: on 9999-12-28
    the fourth slot would fall beyond 9999-12-31 and the addition raises. *)
Lemma slots_overflow_at_range_end :
  in_range (of_civil 9999 12 28 0 0 0) = true
  /\ get_available_service_slots (of_civil 9999 12 28 0 0 0) =
     Raise (OverflowError (u "date value out of range")).
Proof. split; evaluate. Qed.

(** C7, within the range.  For a clock reading [now] whose next five days
    exist as [datetime] values, the slot generator returns five labels, those of
    now + 24 h, now + 48 h, now + 72 h, now + 96 h and now + 120 h, in that
    order; the times grow strictly and the answer depends on [now] alone. *)
Theorem five_daily_slots (now : datetime) :
  in_range now = true ->
  in_range (now + timedelta_hours 120)%Z = true ->
  get_available_service_slots now =
  Ok (map strftime_slot (slot_times now))
  /\ slot_times now =
     [ (now + timedelta_hours 24)%Z; (now + timedelta_hours 48)%Z;
       (now + timedelta_hours 72)%Z; (now + timedelta_hours 96)%Z;
       (now + timedelta_hours 120)%Z ]
  /\ (exists labels,
        get_available_service_slots now = Ok labels
        /\ List.length labels = 5)
  /\ (forall i j ti tj,
        nth_error (slot_times now) i = Some ti ->
        nth_error (slot_times now) j = Some tj ->
        i < j -> (ti < tj)%Z).
Proof.
  intros Hnow Hlast.
  assert (Hstep : forall h, (0 <= h <= 120)%Z ->
                  plus now (timedelta_hours h) = Ok (now + timedelta_hours h)%Z).
  { intros h Hh. unfold plus.
    rewrite (in_range_between now (timedelta_hours h) (timedelta_hours 120)
               Hnow Hlast); [reflexivity|].
    unfold timedelta_hours, us_per_hour. lia. }
  assert (Hrun : get_available_service_slots now =
                 Ok (map strftime_slot (slot_times now))).
  { unfold get_available_service_slots, slot_times.
    change (range 1 6) with [1; 2; 3; 4; 5]%Z. cbn [fold_left bind map].
    change (24 * 1)%Z with 24%Z. change (24 * 2)%Z with 48%Z.
    change (24 * 3)%Z with 72%Z. change (24 * 4)%Z with 96%Z.
    change (24 * 5)%Z with 120%Z.
    rewrite !Hstep by lia. cbn [bind app]. reflexivity. }
  split; [exact Hrun|]. split; [reflexivity|]. split.
  - eexists. split; [exact Hrun|]. reflexivity.
  - intros i j ti tj Hi Hj Hij.
    change (slot_times now) with
      [ (now + timedelta_hours 24)%Z; (now + timedelta_hours 48)%Z;
        (now + timedelta_hours 72)%Z; (now + timedelta_hours 96)%Z;
        (now + timedelta_hours 120)%Z ] in Hi, Hj.
    unfold timedelta_hours, us_per_hour in Hi, Hj.
    destruct i as [|[|[|[|[|i]]]]];
      cbn [nth_error] in Hi; try (destruct i; discriminate);
      destruct j as [|[|[|[|[|j]]]]];
      cbn [nth_error] in Hj; try (destruct j; discriminate);
      try lia; inversion Hi; inversion Hj; lia.
Qed.

Lemma five_daily_slots_witness :
  get_available_service_slots (of_civil 2024 2 26 9 30 0) =
  Ok [u "Tue, Feb 27 @ 09:30 AM"; u "Wed, Feb 28 @ 09:30 AM";
      u "Thu, Feb 29 @ 09:30 AM"; u "Fri, Mar 01 @ 09:30 AM";
      u "Sat, Mar 02 @ 09:30 AM"].
Proof.
  rewrite (proj1 (five_daily_slots (of_civil 2024 2 26 9 30 0)
                    eq_refl eq_refl)).
  evaluate.
Defined.

(** ** Text: prefixes and occurrences *)

Lemma startswith_nil_r (p : str) : p <> [] -> startswith p [] = false.
Proof. destruct p; [congruence|reflexivity]. Qed.

Lemma startswith_length (p s : str) :
  startswith p s = true -> List.length p <= List.length s.
Proof.
  revert s. induction p as [|a p IH]; intros [|b s] H; simpl in *;
    try lia; try discriminate.
  apply andb_true_iff in H. destruct H as [_ H]. apply IH in H. lia.
Qed.

Lemma startswith_app_true (p s t : str) :
  startswith p s = true -> startswith p (s ++ t) = true.
Proof.
  revert s. induction p as [|a p IH]; intros [|b s] H; simpl in *;
    try reflexivity; try discriminate.
  apply andb_true_iff in H. destruct H as [-> H]. simpl. auto.
Qed.

(** A pattern whose last character does not occur in [t] cannot end
    inside [t]. *)
Lemma startswith_app_last (pre : str) (c : char) (t s : str) :
  ~ In c t ->
  startswith (pre ++ [c]) (s ++ t) = startswith (pre ++ [c]) s.
Proof.
  intros Hc. revert s t Hc.
  induction pre as [|a pre IH]; intros s t Hc.
  - destruct s as [|b s]; simpl.
    + destruct t as [|b t]; [reflexivity|].
      destruct (N.eqb_spec c b) as [->|Hne]; [|reflexivity].
      exfalso. apply Hc. left. reflexivity.
    + reflexivity.
  - destruct s as [|b s]; simpl.
    + destruct t as [|b t]; [reflexivity|].
      assert (E : startswith (pre ++ [c]) t = false).
      { rewrite <- (startswith_nil_r (pre ++ [c]))
          by (destruct pre; discriminate).
        apply (IH [] t). intros Hin. apply Hc. right. exact Hin. }
      rewrite E. apply andb_false_r.
    + rewrite IH by exact Hc. reflexivity.
Qed.

Lemma contains_app_l (p w s : str) :
  contains p s = true -> contains p (w ++ s) = true.
Proof.
  intros H. induction w as [|a w IH]; [exact H|].
  cbn [app contains]. rewrite IH. apply orb_true_r.
Qed.

Lemma contains_app_r (p s t : str) :
  contains p s = true -> contains p (s ++ t) = true.
Proof.
  induction s as [|a s IH]; intros H.
  - destruct p as [|b p]; [|discriminate H].
    destruct t; reflexivity.
  - cbn [app contains] in *. apply orb_true_iff in H.
    destruct H as [H|H].
    + pose proof (startswith_app_true _ (a :: s) t H) as E.
      cbn [app] in E. rewrite E. reflexivity.
    + rewrite (IH H). apply orb_true_r.
Qed.

(** ** Text: replace *)

Lemma replace_from_skip (old new y s : str) :
  replace_from old new (List.length y) (y ++ s) = replace_from old new 0 s.
Proof.
  induction y as [|a y IH]; [|exact IH].
  destruct s; reflexivity.
Qed.

(** Text that opens with the pattern loses it. *)
Lemma replace_from_match (old new s : str) :
  old <> [] ->
  replace_from old new 0 (old ++ s) = new ++ replace_from old new 0 s.
Proof.
  destruct old as [|a old]; [congruence|]. intros _.
  cbn [app replace_from].
  assert (H : startswith (a :: old) (a :: old ++ s) = true).
  { apply (startswith_app_true (a :: old) (a :: old) s).
    clear. induction (a :: old) as [|b l IH]; [reflexivity|].
    simpl. rewrite N.eqb_refl. exact IH. }
  rewrite H. cbn [List.length pred].
  rewrite replace_from_skip. reflexivity.
Qed.

(** Characters that cannot open the pattern are copied. *)
Lemma replace_from_copy (a : char) (old new w s : str) :
  ~ In a w ->
  replace_from (a :: old) new 0 (w ++ s) =
  w ++ replace_from (a :: old) new 0 s.
Proof.
  induction w as [|b w IH]; intros Ha; [reflexivity|].
  cbn [app replace_from startswith].
  destruct (N.eqb_spec a b) as [->|Hne].
  - exfalso. apply Ha. left. reflexivity.
  - cbn [andb]. rewrite IH by (intros Hin; apply Ha; right; exact Hin).
    reflexivity.
Qed.

Lemma replace_from_absent (pre : str) (c : char) (new t : str) :
  ~ In c t -> replace_from (pre ++ [c]) new 0 t = t.
Proof.
  induction t as [|b t IH]; intros Hc; [reflexivity|].
  cbn [replace_from].
  pose proof (startswith_app_last pre c (b :: t) [] Hc) as E.
  cbn [app] in E. rewrite E.
  rewrite startswith_nil_r by (destruct pre; discriminate).
  rewrite IH by (intros Hin; apply Hc; right; exact Hin). reflexivity.
Qed.

(** A tail without the pattern's last character is left alone, and no
    occurrence reaches into it. *)
Lemma replace_from_tail (pre : str) (c : char) (new t : str) :
  ~ In c t ->
  forall (s : str) (k : nat),
    k <= List.length s ->
    replace_from (pre ++ [c]) new k (s ++ t) =
    replace_from (pre ++ [c]) new k s ++ t.
Proof.
  intros Hc. induction s as [|a s IH]; intros k Hk.
  - assert (k = 0) as -> by (simpl in Hk; lia).
    cbn [app]. rewrite replace_from_absent by exact Hc.
    destruct t; reflexivity.
  - destruct k as [|k].
    + cbn [app replace_from].
      pose proof (startswith_app_last pre c t (a :: s) Hc) as E.
      cbn [app] in E. rewrite E. clear E.
      destruct (startswith (pre ++ [c]) (a :: s)) eqn:Hm.
      * apply startswith_length in Hm. rewrite IH; [apply app_assoc|].
        simpl in Hm. lia.
      * rewrite IH by lia. reflexivity.
    + cbn [app replace_from]. apply IH. simpl in Hk. lia.
Qed.

(** ** Text: removing the bare fence *)

Lemma fence_chars : fence = [96; 96; 96]%N.
Proof. evaluate. Qed.

Lemma fence_json_chars :
  fence_json = ([96; 96; 96; 106; 115; 111] ++ [110])%N.
Proof. evaluate. Qed.

(** Induction over a text, read the way the fence remover reads it: runs
    of one, two or three backquotes, or another character. *)
Lemma backquote_run_ind (P : str -> Prop) :
  P [] -> P [96%N] -> P [96%N; 96%N] ->
  (forall c s, c <> 96%N -> P s -> P (c :: s)) ->
  (forall c s, c <> 96%N -> P s -> P (96%N :: c :: s)) ->
  (forall c s, c <> 96%N -> P s -> P (96%N :: 96%N :: c :: s)) ->
  (forall s, P s -> P (96%N :: 96%N :: 96%N :: s)) ->
  forall s, P s.
Proof.
  intros H0 H1 H2 Hc H1c H2c H3 s.
  assert (H : forall n t, List.length t <= n -> P t).
  { clear s. induction n as [|n IH]; intros t Ht.
    - destruct t; [exact H0|simpl in Ht; lia].
    - destruct t as [|a t]; [exact H0|].
      destruct (N.eq_dec a 96) as [->|Ha];
        [|apply Hc; [exact Ha|apply IH; simpl in Ht; lia]].
      destruct t as [|b t]; [exact H1|].
      destruct (N.eq_dec b 96) as [->|Hb];
        [|apply H1c; [exact Hb|apply IH; simpl in Ht; lia]].
      destruct t as [|c t]; [exact H2|].
      destruct (N.eq_dec c 96) as [->|Hc'];
        [|apply H2c; [exact Hc'|apply IH; simpl in Ht; lia]].
      apply H3. apply IH. simpl in Ht. lia. }
  apply (H (List.length s)). lia.
Qed.

Lemma unfence_other (c : char) (s : str) :
  c <> 96%N ->
  replace_from [96; 96; 96]%N [] 0 (c :: s) =
  c :: replace_from [96; 96; 96]%N [] 0 s.
Proof.
  intros Hc. cbn [replace_from startswith].
  destruct (N.eqb_spec 96 c) as [E|_]; [congruence|reflexivity].
Qed.

Lemma unfence_one (c : char) (s : str) :
  c <> 96%N ->
  replace_from [96; 96; 96]%N [] 0 (96%N :: c :: s) =
  96%N :: c :: replace_from [96; 96; 96]%N [] 0 s.
Proof.
  intros Hc. rewrite <- (unfence_other c s Hc).
  cbn [replace_from startswith].
  destruct (N.eqb_spec 96 c) as [E|_]; [congruence|reflexivity].
Qed.

Lemma unfence_two (c : char) (s : str) :
  c <> 96%N ->
  replace_from [96; 96; 96]%N [] 0 (96%N :: 96%N :: c :: s) =
  96%N :: 96%N :: c :: replace_from [96; 96; 96]%N [] 0 s.
Proof.
  intros Hc. rewrite <- (unfence_one c s Hc).
  cbn [replace_from startswith].
  destruct (N.eqb_spec 96 c) as [E|_]; [congruence|reflexivity].
Qed.

Lemma unfence_three (s : str) :
  replace_from [96; 96; 96]%N [] 0 (96%N :: 96%N :: 96%N :: s) =
  replace_from [96; 96; 96]%N [] 0 s.
Proof. reflexivity. Qed.

(** A closing fence at the very end disappears, whatever run of backquotes
    it lengthens. *)
Lemma unfence_closing (s : str) :
  replace_from [96; 96; 96]%N [] 0 (s ++ [96; 96; 96]%N) =
  replace_from [96; 96; 96]%N [] 0 s.
Proof.
  induction s as [ | | |c s Hc IH|c s Hc IH|c s Hc IH|s IH]
    using backquote_run_ind; try reflexivity.
  - cbn [app]. rewrite !unfence_other by exact Hc. rewrite IH. reflexivity.
  - cbn [app]. rewrite !unfence_one by exact Hc. rewrite IH. reflexivity.
  - cbn [app]. rewrite !unfence_two by exact Hc. rewrite IH. reflexivity.
  - cbn [app]. rewrite !unfence_three. exact IH.
Qed.

(** What is left holds no fence. *)
Lemma unfence_free (s : str) :
  contains [96; 96; 96]%N (replace_from [96; 96; 96]%N [] 0 s) = false.
Proof.
  assert (Hskip : forall c t, c <> 96%N ->
            contains [96; 96; 96]%N (c :: t) = contains [96; 96; 96]%N t).
  { intros c t Hc. cbn [contains startswith].
    destruct (N.eqb_spec 96 c) as [E|_]; [congruence|reflexivity]. }
  assert (Hone : forall c t, c <> 96%N ->
            contains [96; 96; 96]%N (96%N :: c :: t)
            = contains [96; 96; 96]%N t).
  { intros c t Hc. rewrite <- (Hskip c t Hc). cbn [contains startswith].
    destruct (N.eqb_spec 96 c) as [E|_]; [congruence|reflexivity]. }
  assert (Htwo : forall c t, c <> 96%N ->
            contains [96; 96; 96]%N (96%N :: 96%N :: c :: t)
            = contains [96; 96; 96]%N t).
  { intros c t Hc. rewrite <- (Hone c t Hc). cbn [contains startswith].
    destruct (N.eqb_spec 96 c) as [E|_]; [congruence|reflexivity]. }
  induction s as [ | | |c s Hc IH|c s Hc IH|c s Hc IH|s IH]
    using backquote_run_ind; try reflexivity.
  - rewrite unfence_other, Hskip by exact Hc. exact IH.
  - rewrite unfence_one, Hone by exact Hc. exact IH.
  - rewrite unfence_two, Htwo by exact Hc. exact IH.
  - rewrite unfence_three. exact IH.
Qed.

(** ** Text: strip *)

Lemma isspace_ordinary (c : char) :
  isspace c = true -> c <> 96%N /\ c <> 110%N.
Proof.
  intros H. split; intros ->; vm_compute in H; discriminate.
Qed.

Lemma spaces_without (w : str) :
  forallb isspace w = true -> ~ In 96%N w /\ ~ In 110%N w.
Proof.
  rewrite forallb_forall. intros H.
  split; intros Hin; apply H in Hin; apply isspace_ordinary in Hin;
    destruct Hin; congruence.
Qed.

Lemma lstrip_spaces (w s : str) :
  forallb isspace w = true -> lstrip (w ++ s) = lstrip s.
Proof.
  induction w as [|c w IH]; [reflexivity|].
  cbn [forallb app lstrip]. intros H. apply andb_true_iff in H.
  destruct H as [-> H]. auto.
Qed.

Lemma lstrip_only_spaces (w : str) :
  forallb isspace w = true -> lstrip w = [].
Proof.
  intros H. rewrite <- (app_nil_r w). rewrite lstrip_spaces by exact H.
  reflexivity.
Qed.

Lemma lstrip_app (s w : str) :
  lstrip (s ++ w) = if forallb isspace s then lstrip w else lstrip s ++ w.
Proof.
  induction s as [|c s IH]; [reflexivity|].
  cbn [app lstrip forallb]. destruct (isspace c); [exact IH|reflexivity].
Qed.

Lemma rstrip_spaces (s w : str) :
  forallb isspace w = true -> rstrip (s ++ w) = rstrip s.
Proof.
  intros H. unfold rstrip. rewrite rev_app_distr, lstrip_spaces; [reflexivity|].
  rewrite forallb_forall in *. intros c Hc. apply H. apply in_rev. exact Hc.
Qed.

Lemma strip_spaces (w1 s w2 : str) :
  forallb isspace w1 = true -> forallb isspace w2 = true ->
  strip (w1 ++ s ++ w2) = strip s.
Proof.
  intros H1 H2. unfold strip.
  rewrite lstrip_spaces by exact H1. rewrite lstrip_app.
  destruct (forallb isspace s) eqn:Hs.
  - rewrite (lstrip_only_spaces w2 H2), (lstrip_only_spaces s Hs).
    reflexivity.
  - apply rstrip_spaces. exact H2.
Qed.

Lemma lstrip_suffix (s : str) : exists w, s = w ++ lstrip s.
Proof.
  induction s as [|c s [w IH]]; [exists []; reflexivity|].
  cbn [lstrip]. destruct (isspace c).
  - exists (c :: w). cbn [app]. f_equal. exact IH.
  - exists []. reflexivity.
Qed.

Lemma rstrip_prefix (s : str) : exists w, s = rstrip s ++ w.
Proof.
  unfold rstrip. destruct (lstrip_suffix (rev s)) as [w Hw].
  exists (rev w). rewrite <- rev_app_distr, <- Hw. symmetry. apply rev_involutive.
Qed.

Lemma contains_strip (p s : str) :
  contains p (strip s) = true -> contains p s = true.
Proof.
  intros H. unfold strip in H.
  destruct (rstrip_prefix (lstrip s)) as [w Hw].
  destruct (lstrip_suffix s) as [v Hv].
  rewrite Hv. apply contains_app_l. rewrite Hw. apply contains_app_r. exact H.
Qed.

Lemma startswith_split (p s : str) :
  startswith p s = true -> exists b, s = p ++ b.
Proof.
  revert s. induction p as [|a p IH]; intros s H.
  - exists s. reflexivity.
  - destruct s as [|c s]; [discriminate H|].
    cbn [startswith] in H. apply andb_true_iff in H. destruct H as [Hac H].
    apply N.eqb_eq in Hac. subst c. destruct (IH s H) as [b ->].
    exists b. reflexivity.
Qed.

Lemma startswith_self (p b : str) : startswith p (p ++ b) = true.
Proof.
  induction p as [|a p IH]; [reflexivity|].
  cbn [app startswith]. rewrite N.eqb_refl. exact IH.
Qed.

Lemma contains_split (p s : str) :
  contains p s = true -> exists a b, s = a ++ p ++ b.
Proof.
  induction s as [|c s IH]; cbn [contains]; intros H.
  - rewrite orb_false_r in H. apply startswith_split in H.
    destruct H as [b H]. exists [], b. exact H.
  - apply orb_true_iff in H. destruct H as [H|H].
    + apply startswith_split in H. destruct H as [b H]. exists [], b. exact H.
    + destruct (IH H) as (a & b & ->). exists (c :: a), b. reflexivity.
Qed.

Lemma contains_middle (p a b : str) : contains p (a ++ p ++ b) = true.
Proof.
  apply contains_app_l.
  destruct (p ++ b) eqn:E; cbn [contains]; rewrite <- E;
    rewrite startswith_self; reflexivity.
Qed.

(** A longer pattern occurs only where its opening occurs. *)
Lemma contains_opening (p q s : str) :
  contains (p ++ q) s = true -> contains p s = true.
Proof.
  intros H. apply contains_split in H. destruct H as (a & b & ->).
  rewrite <- app_assoc. apply contains_middle.
Qed.

(** Text that ends in an ordinary character keeps it when white space is
    trimmed off what follows. *)
Lemma rstrip_after (y : str) (c : char) (b : str) :
  isspace c = false ->
  rstrip ((y ++ [c]) ++ b) = (y ++ [c]) ++ rstrip b.
Proof.
  intros Hc. unfold rstrip.
  rewrite rev_app_distr, lstrip_app, (rev_app_distr y [c]).
  cbn [rev app lstrip]. rewrite Hc.
  destruct (forallb isspace (rev b)) eqn:Hb.
  - rewrite (lstrip_only_spaces _ Hb). cbn [rev].
    rewrite rev_involutive, app_nil_r. reflexivity.
  - rewrite rev_app_distr. cbn [rev]. rewrite rev_involutive. reflexivity.
Qed.

Lemma rstrip_keeps_fence (a b : str) :
  contains [96; 96; 96]%N (rstrip (a ++ [96; 96; 96]%N ++ b)) = true.
Proof.
  replace (a ++ [96; 96; 96]%N ++ b)
    with (((a ++ [96; 96]%N) ++ [96%N]) ++ b)
    by (rewrite <- !app_assoc; reflexivity).
  rewrite rstrip_after by reflexivity.
  rewrite <- !app_assoc. apply (contains_middle [96; 96; 96]%N a (rstrip b)).
Qed.

(** Trimming white space removes no fence. *)
Lemma strip_keeps_fence (s : str) :
  contains [96; 96; 96]%N s = true ->
  contains [96; 96; 96]%N (strip s) = true.
Proof.
  intros H. apply contains_split in H. destruct H as (a & b & ->).
  unfold strip. rewrite lstrip_app.
  destruct (forallb isspace a).
  - apply (rstrip_keeps_fence [] b).
  - apply rstrip_keeps_fence.
Qed.

(** ** The clean-up of the manufacturing response *)

Lemma replace_fence_json (s : str) :
  replace fence_json [] s =
  replace_from ([96; 96; 96; 106; 115; 111] ++ [110])%N [] 0 s.
Proof. rewrite fence_json_chars. reflexivity. Qed.

Lemma replace_fence (s : str) :
  replace fence [] s = replace_from [96; 96; 96]%N [] 0 s.
Proof. rewrite fence_chars. reflexivity. Qed.

(** The clean-up leaves no fence marker behind. *)
Lemma clean_response_free (text : str) :
  contains fence (clean_response text) = false
  /\ contains fence_json (clean_response text) = false.
Proof.
  assert (H : contains fence (clean_response text) = false).
  { destruct (contains fence (clean_response text)) eqn:E; [|reflexivity].
    unfold clean_response in E. apply contains_strip in E.
    rewrite replace_fence, fence_chars, unfence_free in E. discriminate. }
  split; [exact H|].
  destruct (contains fence_json (clean_response text)) eqn:E; [|reflexivity].
  rewrite <- H. symmetry.
  apply (contains_opening fence (u "json")). exact E.
Qed.

Lemma unjson_copy (w s : str) :
  ~ In 96%N w ->
  replace_from ([96; 96; 96; 106; 115; 111] ++ [110])%N [] 0 (w ++ s) =
  w ++ replace_from ([96; 96; 96; 106; 115; 111] ++ [110])%N [] 0 s.
Proof.
  exact (replace_from_copy 96%N ([96; 96; 106; 115; 111] ++ [110])%N [] w s).
Qed.

Lemma unjson_tail (s t : str) :
  ~ In 110%N t ->
  replace_from ([96; 96; 96; 106; 115; 111] ++ [110])%N [] 0 (s ++ t) =
  replace_from ([96; 96; 96; 106; 115; 111] ++ [110])%N [] 0 s ++ t.
Proof.
  intros H.
  apply (replace_from_tail [96; 96; 96; 106; 115; 111]%N 110%N [] t H).
  apply Nat.le_0_l.
Qed.

Lemma unfence_copy (w s : str) :
  ~ In 96%N w ->
  replace_from [96; 96; 96]%N [] 0 (w ++ s) =
  w ++ replace_from [96; 96; 96]%N [] 0 s.
Proof. exact (replace_from_copy 96%N [96; 96]%N [] w s). Qed.

Lemma unfence_tail (s t : str) :
  ~ In 96%N t ->
  replace_from [96; 96; 96]%N [] 0 (s ++ t) =
  replace_from [96; 96; 96]%N [] 0 s ++ t.
Proof.
  intros H. apply (replace_from_tail [96; 96]%N 96%N [] t H).
  apply Nat.le_0_l.
Qed.

Lemma unjson_opening (s : str) :
  replace_from ([96; 96; 96; 106; 115; 111] ++ [110])%N [] 0
    (([96; 96; 96; 106; 115; 111] ++ [110])%N ++ s) =
  replace_from ([96; 96; 96; 106; 115; 111] ++ [110])%N [] 0 s.
Proof. apply (replace_from_match _ [] s). discriminate. Qed.

(** A fenced payload and the bare payload are cleaned to the same text. *)
Lemma clean_response_fenced (w1 payload w2 : str) :
  forallb isspace w1 = true -> forallb isspace w2 = true ->
  clean_response (fenced w1 payload w2) = clean_response payload.
Proof.
  intros H1 H2.
  destruct (spaces_without w1 H1) as [Hq1 _].
  destruct (spaces_without w2 H2) as [Hq2 Hn2].
  assert (Hn : ~ In 110%N (w2 ++ [96; 96; 96]%N)).
  { intros Hin. apply in_app_or in Hin. destruct Hin as [Hin|Hin].
    - exact (Hn2 Hin).
    - repeat (destruct Hin as [Hin|Hin]; [discriminate Hin|]). exact Hin. }
  unfold clean_response, fenced.
  rewrite !replace_fence_json, !replace_fence.
  rewrite fence_json_chars, fence_chars.
  rewrite unjson_opening, (unjson_copy w1 _ Hq1), (unjson_tail _ _ Hn).
  rewrite !app_assoc, unfence_closing, <- !app_assoc.
  rewrite (unfence_copy w1 _ Hq1), (unfence_tail _ w2 Hq2).
  apply strip_spaces; assumption.
Qed.

(** The manufacturing stage when the capability answers with a text. *)
Lemma manufacturing_on_text (J : JsonLib) (st : Session)
    (temp vibration voltage : float) (anomalies : list str) (text : str) :
  gemini_client_ready st = true ->
  generate_content st gemini_model
    (manufacturing_prompt J temp vibration voltage anomalies)
  = Ok (Truthy (Ok text)) ->
  call_gemini_manufacturing J st temp vibration voltage anomalies =
  try_except
    (loads_or J (clean_response text)
       (mock_manufacturing_feedback temp vibration voltage))
    (fun e =>
       (Ok (mock_manufacturing_feedback temp vibration voltage),
        [u "Manufacturing feedback error: " ++ take 100 (exn_str e)])).
Proof.
  intros Hon Hask. unfold call_gemini_manufacturing.
  rewrite Hon, Hask. reflexivity.
Qed.

(** C8. A response made of a payload inside a json code fence, with or
    without white space between the markers and the payload, is cleaned to
    the same text as the bare payload; the manufacturing stage therefore
    returns the same thing for both, and when the bare payload parses to a
    record the fenced one parses to that record. *)
Theorem fenced_payload_parses_alike
    (J : JsonLib) (bare wrapped : Session)
    (temp vibration voltage : float) (anomalies : list str)
    (w1 payload w2 : str) :
  forallb isspace w1 = true ->
  forallb isspace w2 = true ->
  gemini_client_ready bare = true ->
  gemini_client_ready wrapped = true ->
  generate_content bare gemini_model
    (manufacturing_prompt J temp vibration voltage anomalies)
  = Ok (Truthy (Ok payload)) ->
  generate_content wrapped gemini_model
    (manufacturing_prompt J temp vibration voltage anomalies)
  = Ok (Truthy (Ok (fenced w1 payload w2))) ->
  clean_response (fenced w1 payload w2) = clean_response payload
  /\ call_gemini_manufacturing J wrapped temp vibration voltage anomalies
     = call_gemini_manufacturing J bare temp vibration voltage anomalies
  /\ (forall record,
        loads J (clean_response payload) = Ok record ->
        call_gemini_manufacturing J bare temp vibration voltage anomalies
        = (Ok record, [])
        /\ call_gemini_manufacturing J wrapped temp vibration voltage
             anomalies
           = (Ok record, [])).
Proof.
  intros H1 H2 Hb Hw Hbare Hwrapped.
  pose proof (clean_response_fenced w1 payload w2 H1 H2) as Hclean.
  rewrite (manufacturing_on_text J wrapped _ _ _ _ _ Hw Hwrapped).
  rewrite (manufacturing_on_text J bare _ _ _ _ _ Hb Hbare).
  rewrite Hclean.
  split; [reflexivity|]. split; [reflexivity|].
  intros record Hrec. unfold loads_or. rewrite Hrec. split; reflexivity.
Qed.

Lemma fenced_payload_parses_alike_witness :
  call_gemini_manufacturing json_stub
    (answering (Ok (Truthy (Ok (fenced nl (u "{}") nl)))))
    (of_Z 115) (of_Z 2) (of_Z 13) []
  = (Ok (JObject []), []).
Proof.
  apply (fenced_payload_parses_alike json_stub
           (answering (Ok (Truthy (Ok (u "{}")))))
           (answering (Ok (Truthy (Ok (fenced nl (u "{}") nl)))))
           (of_Z 115) (of_Z 2) (of_Z 13) [] nl (u "{}") nl
           eq_refl eq_refl eq_refl eq_refl eq_refl eq_refl).
  evaluate.
Defined.

(** C10. The clean-up is not tied to a wrapping fence.  The text handed to
    the parser is the response with the json fence markers removed, then
    the bare fence markers removed, then the white space trimmed; a marker
    is removed wherever it stands, also behind other text; the cleaned text
    holds no marker at all; so a response that holds a fence anywhere, for
    instance inside a string value of its payload, reaches the parser
    changed. *)
Theorem fence_cleanup_is_global
    (J : JsonLib) (st : Session) (temp vibration voltage : float)
    (anomalies : list str) (text : str) :
  gemini_client_ready st = true ->
  generate_content st gemini_model
    (manufacturing_prompt J temp vibration voltage anomalies)
  = Ok (Truthy (Ok text)) ->
  (* what is parsed *)
  fst (call_gemini_manufacturing J st temp vibration voltage anomalies) =
  match loads J (strip (replace fence [] (replace fence_json [] text))) with
  | Ok value => Ok value
  | Raise _ => Ok (mock_manufacturing_feedback temp vibration voltage)
  end
  (* markers go wherever they stand *)
  /\ (forall a b,
        ~ In 96%N a ->
        replace fence_json [] (a ++ fence_json ++ b) =
        a ++ replace fence_json [] b)
  /\ (forall a b,
        ~ In 96%N a ->
        replace fence [] (a ++ fence ++ b) = a ++ replace fence [] b)
  (* none is left *)
  /\ contains fence (clean_response text) = false
  /\ contains fence_json (clean_response text) = false
  (* a response holding a fence is not parsed as it came *)
  /\ (contains fence text = true ->
      clean_response text <> text /\ clean_response text <> strip text).
Proof.
  intros Hon Hask.
  split; [|split; [|split; [|split; [|split]]]].
  - rewrite (manufacturing_on_text J st _ _ _ _ _ Hon Hask).
    unfold loads_or. fold (clean_response text).
    destruct (loads J (clean_response text)) as [v|[m|m|m|m]]; reflexivity.
  - intros a b Ha. rewrite !replace_fence_json, fence_json_chars.
    rewrite (unjson_copy a _ Ha), unjson_opening. reflexivity.
  - intros a b Ha. rewrite !replace_fence, fence_chars.
    rewrite (unfence_copy a _ Ha). reflexivity.
  - apply clean_response_free.
  - apply clean_response_free.
  - intros Hin. destruct (clean_response_free text) as [Hfree _].
    split; intros E; rewrite E in Hfree.
    + congruence.
    + rewrite fence_chars in Hin, Hfree.
      rewrite (strip_keeps_fence text Hin) in Hfree. discriminate.
Qed.

Lemma fence_cleanup_is_global_witness :
  let text :=
    u "{" ++ dq ++ u "Root_Cause" ++ dq ++ u ": " ++ dq
    ++ u "see ```log``` of pump" ++ dq ++ u "}" in
  clean_response text =
  u "{" ++ dq ++ u "Root_Cause" ++ dq ++ u ": " ++ dq
  ++ u "see log of pump" ++ dq ++ u "}"
  /\ clean_response text <> text.
Proof.
  cbv zeta. split; [evaluate|].
  apply (fence_cleanup_is_global json_stub
           (answering
              (Ok (Truthy (Ok (u "{" ++ dq ++ u "Root_Cause" ++ dq ++ u ": "
                               ++ dq ++ u "see ```log``` of pump" ++ dq
                               ++ u "}")))))
           (of_Z 115) (of_Z 2) (of_Z 13) [] _ eq_refl eq_refl).
  evaluate.
Defined.

(* ====================================================================== *)
(** * Beyond the specification: the rest of [app.py]                      *)
(* ====================================================================== *)

(** ** The rolling sensor history *)

Lemma keep_last_length {A} (history_size : Z) (l : list A) :
  (1 <= history_size)%Z ->
  List.length (keep_last history_size l) =
  Nat.min (List.length l) (Z.to_nat history_size).
Proof.
  intros Hs. unfold keep_last.
  destruct (Z.gtb_spec (Z.of_nat (List.length l)) history_size) as [Hgt|Hle].
  - destruct history_size as [|p|p]; try lia.
    cbn [last_slice]. rewrite length_skipn. lia.
  - lia.
Qed.

Lemma keep_last_suffix {A} (history_size : Z) (l : list A) :
  exists dropped, l = dropped ++ keep_last history_size l.
Proof.
  unfold keep_last.
  destruct (Z.of_nat (List.length l) >? history_size)%Z.
  - destruct history_size as [|p|p]; cbn [last_slice].
    + exists []. reflexivity.
    + eexists. symmetry. apply firstn_skipn.
    + eexists. symmetry. apply firstn_skipn.
  - exists []. reflexivity.
Qed.

Lemma keep_last_newest {A} (history_size : Z) (l : list A) (x d : A) :
  (1 <= history_size)%Z ->
  last (keep_last history_size (l ++ [x])) d = x.
Proof.
  intros Hs. unfold keep_last. rewrite length_app. cbn [List.length].
  destruct (Z.of_nat (List.length l + 1) >? history_size)%Z.
  - destruct history_size as [|p|p]; try lia. cbn [last_slice].
    rewrite length_app. cbn [List.length].
    rewrite skipn_app.
    replace (List.length l + 1 - Z.to_nat (Z.pos p) - List.length l)
      with 0 by lia.
    cbn [skipn]. apply last_last.
  - apply last_last.
Qed.

(** X1. With a window of at least one sample, [update_sensor_history]
    keeps the four lists equally long: a history of [n] samples per list
    becomes one of [min(n + 1, history_size)] samples per list, so the
    window never holds more than [history_size] samples. *)
Theorem history_window_is_bounded
    (now : datetime) (history : SensorHistory)
    (temp vibration voltage : float) (history_size : Z) (n : nat) :
  (1 <= history_size)%Z ->
  aligned n history ->
  aligned (Nat.min (S n) (Z.to_nat history_size))
    (update_sensor_history now history temp vibration voltage history_size).
Proof.
  intros Hs (H1 & H2 & H3 & H4).
  unfold aligned, update_sensor_history.
  cbn [timestamps temperatures vibrations voltages].
  rewrite !keep_last_length by exact Hs.
  rewrite !length_app. cbn [List.length].
  rewrite H1, H2, H3, H4. repeat split; lia.
Qed.

Lemma history_window_is_bounded_witness :
  aligned 2
    (update_sensor_history 7%Z (update_sensor_history 5%Z
       (update_sensor_history 3%Z empty_history
          (of_Z 70) (of_Z 2) (of_Z 13) 2%Z)
       (of_Z 80) (of_Z 3) (of_Z 12) 2%Z)
       (of_Z 90) (of_Z 4) (of_Z 11) 2%Z).
Proof.
  apply (history_window_is_bounded 7%Z _ (of_Z 90) (of_Z 4) (of_Z 11) 2%Z 2);
    [lia|].
  apply (history_window_is_bounded 5%Z _ (of_Z 80) (of_Z 3) (of_Z 12) 2%Z 1);
    [lia|].
  apply (history_window_is_bounded 3%Z _ (of_Z 70) (of_Z 2) (of_Z 13) 2%Z 0);
    [lia|].
  repeat split.
Defined.

(** X2. With a window of at least one sample, each list after the update
    is the tail of the old list with the new sample appended: the samples
    kept are the most recent ones, in order, and the new sample is the
    last. *)
Theorem history_keeps_most_recent
    (now : datetime) (history : SensorHistory)
    (temp vibration voltage : float) (history_size : Z) :
  (1 <= history_size)%Z ->
  let updated :=
    update_sensor_history now history temp vibration voltage history_size in
  (exists dropped,
      timestamps history ++ [now] = dropped ++ timestamps updated)
  /\ (exists dropped,
        temperatures history ++ [temp] = dropped ++ temperatures updated)
  /\ (exists dropped,
        vibrations history ++ [vibration] = dropped ++ vibrations updated)
  /\ (exists dropped,
        voltages history ++ [voltage] = dropped ++ voltages updated)
  /\ (forall d, last (timestamps updated) d = now)
  /\ (forall d, last (temperatures updated) d = temp)
  /\ (forall d, last (vibrations updated) d = vibration)
  /\ (forall d, last (voltages updated) d = voltage).
Proof.
  intros Hs. cbv zeta. unfold update_sensor_history.
  cbn [timestamps temperatures vibrations voltages].
  repeat split; try apply keep_last_suffix;
    intros d; apply keep_last_newest; exact Hs.
Qed.

Lemma history_keeps_most_recent_witness :
  last (temperatures
          (update_sensor_history 5%Z
             {| timestamps := [1; 2]%Z; temperatures := [of_Z 70; of_Z 80];
                vibrations := [of_Z 1; of_Z 2];
                voltages := [of_Z 12; of_Z 13] |}
             (of_Z 90) (of_Z 3) (of_Z 11) 2%Z)) (of_Z 0) = of_Z 90.
Proof.
  apply (history_keeps_most_recent 5%Z _ (of_Z 90) (of_Z 3) (of_Z 11) 2%Z).
  lia.
Defined.

(** X3. A window size of zero does not empty the history: the slice
    [l[-0:]] is the whole list, so every sample is kept and the lists grow
    by one at each update.  A negative size [-k] drops the [k] oldest
    entries of each list instead. *)
Theorem history_size_zero_keeps_everything
    (now : datetime) (history : SensorHistory)
    (temp vibration voltage : float) (history_size : Z) :
  (history_size <= 0)%Z ->
  let k := Z.to_nat (- history_size) in
  update_sensor_history now history temp vibration voltage history_size =
  {| timestamps := skipn k (timestamps history ++ [now]);
     temperatures := skipn k (temperatures history ++ [temp]);
     vibrations := skipn k (vibrations history ++ [vibration]);
     voltages := skipn k (voltages history ++ [voltage]) |}
  /\ (history_size = 0%Z ->
      update_sensor_history now history temp vibration voltage history_size =
      {| timestamps := timestamps history ++ [now];
         temperatures := temperatures history ++ [temp];
         vibrations := vibrations history ++ [vibration];
         voltages := voltages history ++ [voltage] |}).
Proof.
  intros Hs. cbv zeta.
  assert (H : forall A (l : list A) (x : A),
             keep_last history_size (l ++ [x]) =
             skipn (Z.to_nat (- history_size)) (l ++ [x])).
  { intros A l x. unfold keep_last. rewrite length_app. cbn [List.length].
    destruct (Z.gtb_spec (Z.of_nat (List.length l + 1)) history_size); [|lia].
    destruct history_size as [|p|p]; try lia; reflexivity. }
  unfold update_sensor_history. rewrite !H. split; [reflexivity|].
  intros ->. reflexivity.
Qed.

Lemma history_size_zero_keeps_everything_witness :
  List.length
    (temperatures
       (update_sensor_history 5%Z
          {| timestamps := [1; 2]%Z; temperatures := [of_Z 70; of_Z 80];
             vibrations := [of_Z 1; of_Z 2];
             voltages := [of_Z 12; of_Z 13] |}
          (of_Z 90) (of_Z 3) (of_Z 11) 0%Z)) = 3.
Proof.
  destruct (history_size_zero_keeps_everything 5%Z
              {| timestamps := [1; 2]%Z; temperatures := [of_Z 70; of_Z 80];
                 vibrations := [of_Z 1; of_Z 2];
                 voltages := [of_Z 12; of_Z 13] |}
              (of_Z 90) (of_Z 3) (of_Z 11) 0%Z ltac:(lia)) as [_ H].
  rewrite (H eq_refl). reflexivity.
Defined.

(** ** Configuring the client *)

(** X4. [setup_gemini_api] never lets an exception out and answers [True]
    exactly when the SDK was imported, the key is not blank, and neither
    [genai.configure] nor the probe call raises; what the probe answers is
    not looked at.  A blank key, or a missing SDK, gives [False] without
    any warning; a raised exception gives [False] and one warning. *)
Theorem setup_gemini_api_answer (sdk : Sdk) (api_key : str) :
  let answer := fst (setup_gemini_api sdk api_key) in
  let warnings := snd (setup_gemini_api sdk api_key) in
  (answer = true <->
   GEMINI_AVAILABLE sdk = true
   /\ strip api_key <> []
   /\ configure sdk api_key = Ok tt
   /\ exists response,
        sdk_generate_content sdk gemini_model (u "ping") = Ok response)
  /\ (GEMINI_AVAILABLE sdk = false \/ strip api_key = [] -> warnings = [])
  /\ (answer = true -> warnings = [])
  /\ (forall e,
        GEMINI_AVAILABLE sdk = true -> strip api_key <> [] ->
        configure sdk api_key = Raise e
        \/ (configure sdk api_key = Ok tt
            /\ sdk_generate_content sdk gemini_model (u "ping") = Raise e) ->
        setup_gemini_api sdk api_key =
        (false,
         [u "⚠️ Gemini API Configuration Issue: " ++ take 100 (exn_str e)])).
Proof.
  cbv zeta. unfold setup_gemini_api.
  assert (Hblank : truthy api_key && truthy (strip api_key) = true
                   <-> strip api_key <> []).
  { destruct api_key as [|c k]; [split; [discriminate|intros H; elim H; reflexivity]|].
    cbn [truthy andb]. destruct (strip (c :: k)); cbn [truthy];
      split; congruence. }
  destruct (GEMINI_AVAILABLE sdk); cbn [negb].
  2:{ cbn [fst snd]. repeat split; try discriminate; try reflexivity.
      intros (H & _). discriminate H. }
  destruct (truthy api_key && truthy (strip api_key)).
  - assert (Hkey : strip api_key <> []) by (apply Hblank; reflexivity).
    destruct (configure sdk api_key) as [[]|e] eqn:Hc; cbn [bind].
    + destruct (sdk_generate_content sdk gemini_model (u "ping"))
        as [r|e] eqn:Hp; cbn [bind fst snd].
      * repeat split; eauto; try congruence.
        intros e _ _ [H|[_ H]]; discriminate H.
      * repeat split; try discriminate; try congruence.
        -- intros (_ & _ & _ & r & Hr). discriminate Hr.
        -- intros [H|H]; [discriminate H|contradiction].
        -- intros e' _ _ [H|[_ H]]; [discriminate H|]. congruence.
    + cbn [fst snd]. repeat split; try discriminate; try congruence.
      * intros (_ & _ & H & _). discriminate H.
      * intros [H|H]; [discriminate H|contradiction].
      * intros e' _ _ [H|[H _]]; [congruence|discriminate H].
  - assert (Hs : strip api_key = []).
    { destruct (strip api_key) eqn:E; [reflexivity|].
      exfalso. assert (H : false = true) by (apply Hblank; discriminate).
      discriminate H. }
    cbn [fst snd]. repeat split; try discriminate; try reflexivity.
    + intros (_ & H & _). contradiction.
    + intros e _ H. contradiction.
Qed.

Lemma setup_gemini_api_answer_witness :
  setup_gemini_api sdk_accepting (u " AIza-key ") = (true, [])
  /\ setup_gemini_api sdk_refusing (u "AIza-key") =
     (false, [u "⚠️ Gemini API Configuration Issue: API key not valid"])
  /\ snd (setup_gemini_api sdk_refusing (u "   ")) = [].
Proof.
  destruct (setup_gemini_api_answer sdk_accepting (u " AIza-key "))
    as (Hiff & _ & Hquiet & _).
  destruct (setup_gemini_api_answer sdk_refusing (u "AIza-key"))
    as (_ & _ & _ & Hraise).
  destruct (setup_gemini_api_answer sdk_refusing (u "   "))
    as (_ & Hblank & _).
  assert (Hyes : fst (setup_gemini_api sdk_accepting (u " AIza-key ")) = true).
  { apply Hiff. split; [reflexivity|]. split; [vm_compute; discriminate|].
    split; [reflexivity|]. eexists. reflexivity. }
  split; [|split].
  - rewrite (surjective_pairing (setup_gemini_api _ _)).
    rewrite Hyes, (Hquiet Hyes). reflexivity.
  - rewrite (Hraise (OtherError (u "API key not valid")) eq_refl);
      [evaluate|vm_compute; discriminate|].
    right. split; reflexivity.
  - apply Hblank. right. evaluate.
Defined.

(** ** Session state *)

Lemma text_eqb_eq (a b : str) : Text.eqb a b = true <-> a = b.
Proof.
  revert b. induction a as [|x a IH]; intros [|y b]; cbn [Text.eqb];
    try (split; [discriminate|discriminate]); [split; reflexivity|].
  rewrite andb_true_iff, N.eqb_eq, IH. split.
  - intros [-> ->]. reflexivity.
  - intros H. injection H as -> ->. split; reflexivity.
Qed.

Lemma lookup_set_if_absent (key key' : str) (value : pyvalue)
    (state : session_state) :
  lookup key (set_if_absent key' value state) =
  match lookup key state with
  | Some v => Some v
  | None => if Text.eqb key' key then Some value else None
  end.
Proof.
  unfold set_if_absent. destruct (lookup key' state) as [v'|] eqn:Hk'.
  - destruct (lookup key state) eqn:Hk; [reflexivity|].
    destruct (Text.eqb key' key) eqn:E; [|reflexivity].
    apply text_eqb_eq in E. subst key'. congruence.
  - clear Hk'. induction state as [|[k v] rest IH]; cbn [app lookup].
    + destruct (Text.eqb key' key); reflexivity.
    + destruct (Text.eqb k key); [reflexivity|exact IH].
Qed.

Lemma lookup_in_keys (key : str) (value : pyvalue) (state : session_state) :
  lookup key state = Some value -> In key (map fst state).
Proof.
  induction state as [|[k v] rest IH]; cbn [lookup map fst In];
    [discriminate|].
  destruct (Text.eqb k key) eqn:E.
  - intros _. left. apply text_eqb_eq. exact E.
  - intros H. right. exact (IH H).
Qed.

(** What a key holds after initialisation: what it held before, or else
    what initialising an empty state gives it. *)
Lemma lookup_initialize (key : str) (state : session_state) :
  lookup key (initialize_session_state state) =
  match lookup key state with
  | Some v => Some v
  | None => lookup key (initialize_session_state [])
  end.
Proof.
  unfold initialize_session_state. cbv zeta.
  rewrite !lookup_set_if_absent. cbn [lookup].
  destruct (lookup key state); reflexivity.
Qed.

Lemma initialize_fixed (state : session_state) :
  (forall key, In key session_keys -> lookup key state <> None) ->
  initialize_session_state state = state.
Proof.
  intros H. unfold initialize_session_state. cbv zeta.
  assert (Hid : forall key value,
             In key session_keys -> set_if_absent key value state = state).
  { intros key value Hin. unfold set_if_absent.
    destruct (lookup key state) eqn:E; [reflexivity|].
    elim (H key Hin E). }
  assert (Hin : forall key, In key session_keys ->
                  In key session_keys) by auto.
  unfold session_keys in Hin at 2. cbn [In] in Hin.
  rewrite (Hid (u "api_key")) by (apply Hin; left; reflexivity).
  rewrite (Hid (u "gemini_client_ready"))
    by (apply Hin; right; left; reflexivity).
  rewrite (Hid (u "sensor_history"))
    by (apply Hin; do 2 right; left; reflexivity).
  rewrite (Hid (u "alert_triggered"))
    by (apply Hin; do 3 right; left; reflexivity).
  rewrite (Hid (u "diagnosis_result"))
    by (apply Hin; do 4 right; left; reflexivity).
  rewrite (Hid (u "customer_message"))
    by (apply Hin; do 5 right; left; reflexivity).
  rewrite (Hid (u "manufacturing_feedback"))
    by (apply Hin; do 6 right; left; reflexivity).
  apply Hid. apply Hin. do 7 right. left. reflexivity.
Qed.

(** X5. [initialize_session_state] only fills gaps: a key that is already
    in the session state keeps its value, each of the eight keys it looks
    after is defined afterwards, a key it does not look after stays as it
    was, and running it again changes nothing. *)
Theorem initialize_session_state_fills_gaps (state : session_state) :
  (forall key value,
      lookup key state = Some value ->
      lookup key (initialize_session_state state) = Some value)
  /\ (forall key,
        In key session_keys ->
        lookup key (initialize_session_state state) <> None)
  /\ (forall key,
        ~ In key session_keys ->
        lookup key (initialize_session_state state) = lookup key state)
  /\ initialize_session_state (initialize_session_state state) =
     initialize_session_state state.
Proof.
  assert (Hdef : forall key, In key session_keys ->
                   lookup key (initialize_session_state []) <> None).
  { intros key Hin. unfold session_keys in Hin. cbn [In] in Hin.
    repeat (destruct Hin as [<-|Hin]; [vm_compute; discriminate|]).
    contradiction. }
  assert (Hall : forall key, In key session_keys ->
                   lookup key (initialize_session_state state) <> None).
  { intros key Hin. rewrite lookup_initialize.
    destruct (lookup key state); [discriminate|]. apply Hdef. exact Hin. }
  split; [|split; [|split]].
  - intros key value H. rewrite lookup_initialize, H. reflexivity.
  - exact Hall.
  - intros key Hout. rewrite lookup_initialize.
    destruct (lookup key state); [reflexivity|].
    destruct (lookup key (initialize_session_state [])) eqn:E;
      [|reflexivity].
    apply lookup_in_keys in E. elim Hout.
    replace session_keys with (map fst (initialize_session_state []))
      by evaluate.
    exact E.
  - apply initialize_fixed. exact Hall.
Qed.

Lemma initialize_session_state_fills_gaps_witness :
  lookup (u "api_key")
    (initialize_session_state [(u "api_key", PStr (u "AIza-key"))])
  = Some (PStr (u "AIza-key")).
Proof.
  destruct (initialize_session_state_fills_gaps
              [(u "api_key", PStr (u "AIza-key"))]) as [Hkept _].
  apply Hkept. evaluate.
Defined.

(** ** The order of floats *)

Lemma SFcompare_lt_le (a b c : float) (r : comparison) :
  SFcompare a b = Some Lt ->
  SFcompare b c = Some r -> r <> Gt ->
  SFcompare a c = Some Lt.
Proof.
  destruct a as [sa|sa| |sa ma ea], b as [sb|sb| |sb mb eb],
           c as [sc|sc| |sc mc ec]; cbn [SFcompare];
    try discriminate;
    try (destruct sa; try discriminate); try (destruct sb; try discriminate);
    try (destruct sc; try discriminate);
    try (intros; reflexivity);
    try (intros _ H Hr; injection H as <-; congruence);
    try (intros H; discriminate H).
  all: rewrite ?Pos.compare_cont_spec; cbn [Pos.switch_Eq].
  all: intros H1 H2 Hr; injection H1 as H1; injection H2 as H2; f_equal.
  all: destruct (Z.compare_spec ea eb), (Z.compare_spec eb ec),
         (Z.compare_spec ea ec);
       try lia; try discriminate; try reflexivity; subst.
  all: try (destruct (Pos.compare_spec ma mb), (Pos.compare_spec mb mc),
              (Pos.compare_spec ma mc);
            cbn in *; try lia; try discriminate; try reflexivity; subst;
            try congruence; try lia).
Qed.

Lemma lt_le_trans (a b c : float) :
  lt a b = true -> le b c = true -> lt a c = true.
Proof.
  unfold lt, le, SFltb, SFleb.
  destruct (SFcompare a b) as [[ | | ]|] eqn:Hab; try discriminate.
  destruct (SFcompare b c) as [[ | | ]|] eqn:Hbc; try discriminate;
    intros _ _; rewrite (SFcompare_lt_le a b c _ Hab Hbc); congruence.
Qed.

Lemma lt_trans (a b c : float) :
  lt a b = true -> lt b c = true -> lt a c = true.
Proof.
  intros Hab Hbc. apply (lt_le_trans a b c Hab).
  apply gt_le. exact Hbc.
Qed.

Lemma SFcompare_le_lt (a b c : float) (r : comparison) :
  SFcompare a b = Some r -> r <> Gt ->
  SFcompare b c = Some Lt ->
  SFcompare a c = Some Lt.
Proof.
  destruct a as [sa|sa| |sa ma ea], b as [sb|sb| |sb mb eb],
           c as [sc|sc| |sc mc ec]; cbn [SFcompare];
    try discriminate;
    try (destruct sa; try discriminate); try (destruct sb; try discriminate);
    try (destruct sc; try discriminate);
    try (intros; reflexivity);
    try (intros H Hr _; injection H as <-; congruence);
    try (intros _ _ H; discriminate H).
  all: rewrite ?Pos.compare_cont_spec; cbn [Pos.switch_Eq].
  all: intros H1 Hr H2; injection H1 as H1; injection H2 as H2; f_equal.
  all: destruct (Z.compare_spec ea eb), (Z.compare_spec eb ec),
         (Z.compare_spec ea ec);
       try lia; try discriminate; try reflexivity; subst; try congruence.
  all: try (destruct (Pos.compare_spec ma mb), (Pos.compare_spec mb mc),
              (Pos.compare_spec ma mc);
            cbn in *; try lia; try discriminate; try reflexivity; subst;
            try congruence; try lia).
Qed.

Lemma le_lt_trans (a b c : float) :
  le a b = true -> lt b c = true -> lt a c = true.
Proof.
  unfold lt, le, SFltb, SFleb.
  destruct (SFcompare b c) as [[ | | ]|] eqn:Hbc; try discriminate.
  destruct (SFcompare a b) as [[ | | ]|] eqn:Hab; try discriminate;
    intros _ _; rewrite (SFcompare_le_lt a b c _ Hab ltac:(discriminate) Hbc);
    reflexivity.
Qed.

(** ** More about the classifier *)

Lemma critical_crosses_warning (temp vibration voltage : float) :
  (gt temp (of_Z 110) = true -> gt temp (of_Z 95) = true)
  /\ (gt vibration (dyadic 17 (-1)) = true -> gt vibration (of_Z 7) = true)
  /\ (lt voltage (dyadic 21 (-1)) = true ->
      lt voltage (dyadic 23 (-1)) = true).
Proof.
  unfold gt. split; [|split]; intros H.
  - apply (lt_trans (of_Z 95) (of_Z 110) temp); [evaluate|exact H].
  - apply (lt_trans (of_Z 7) (dyadic 17 (-1)) vibration); [evaluate|exact H].
  - apply (lt_trans voltage (dyadic 21 (-1)) (dyadic 23 (-1)));
      [exact H|evaluate].
Qed.

(** X6. The verdict is critical only when there is a finding, and there
    are never more than three; so the guard [is_critical or anomalies] in
    front of the agents in [main] is just "the list of anomalies is not
    empty". *)
Theorem agents_run_iff_some_anomaly (temp vibration voltage : float) :
  let is_critical := fst (check_thresholds temp vibration voltage) in
  let anomalies := snd (check_thresholds temp vibration voltage) in
  (is_critical = true -> anomalies <> [])
  /\ List.length anomalies <= 3
  /\ (anomaly_detected is_critical anomalies = true <-> anomalies <> []).
Proof.
  cbv zeta. rewrite check_thresholds_split. cbn [fst snd].
  unfold anomaly_detected, temperature_grade, vibration_grade, voltage_grade,
    grade, temperature_lines, vibration_lines, voltage_lines.
  destruct (gt temp (of_Z 110)); [|destruct (gt temp (of_Z 95))];
    (destruct (gt vibration (dyadic 17 (-1)));
       [|destruct (gt vibration (of_Z 7))]);
    (destruct (lt voltage (dyadic 21 (-1)));
       [|destruct (lt voltage (dyadic 23 (-1)))]);
    cbn [critical orb app List.length];
    (split; [|split; [|split]]);
    try discriminate; try lia; try reflexivity; try congruence;
    intros _; discriminate.
Qed.

Lemma agents_run_iff_some_anomaly_witness :
  snd (check_thresholds (of_Z 120) (of_Z 2) (of_Z 13)) <> [].
Proof.
  apply (agents_run_iff_some_anomaly (of_Z 120) (of_Z 2) (of_Z 13)).
  evaluate.
Defined.

(** X7. [check_thresholds] reports nothing exactly when none of the three
    warning tests succeeds: not temperature > 95, not vibration > 7.0, not
    voltage < 11.5.  A signal that is not a number passes no test, so a
    reading made of NaN values is reported as healthy. *)
Theorem no_anomaly_iff_no_warning_test (temp vibration voltage : float) :
  (snd (check_thresholds temp vibration voltage) = [] <->
   gt temp (of_Z 95) = false
   /\ gt vibration (of_Z 7) = false
   /\ lt voltage (dyadic 23 (-1)) = false)
  /\ check_thresholds S754_nan S754_nan S754_nan = (false, []).
Proof.
  split; [|evaluate].
  destruct (critical_crosses_warning temp vibration voltage)
    as (Ht & Hv & Hb).
  rewrite check_thresholds_split. cbn [snd].
  unfold temperature_lines, vibration_lines, voltage_lines.
  destruct (gt temp (of_Z 110));
    [specialize (Ht eq_refl)|clear Ht];
    (destruct (gt temp (of_Z 95)); try discriminate Ht);
    (destruct (gt vibration (dyadic 17 (-1)));
       [specialize (Hv eq_refl)|clear Hv]);
    (destruct (gt vibration (of_Z 7)); try discriminate Hv);
    (destruct (lt voltage (dyadic 21 (-1)));
       [specialize (Hb eq_refl)|clear Hb]);
    (destruct (lt voltage (dyadic 23 (-1))); try discriminate Hb);
    cbn [app]; split; try discriminate; try (intros (? & ? & ?); discriminate);
    repeat split.
Qed.

Lemma no_anomaly_iff_no_warning_test_witness :
  snd (check_thresholds (of_Z 75) (of_Z 2) (of_Z 13)) = [].
Proof.
  apply (no_anomaly_iff_no_warning_test (of_Z 75) (of_Z 2) (of_Z 13)).
  repeat split.
Defined.

(** The grade of a signal follows its value. *)
Lemma grade_follows_value (x y : float) :
  le x y = true ->
  rank (temperature_grade x) <= rank (temperature_grade y)
  /\ rank (vibration_grade x) <= rank (vibration_grade y)
  /\ rank (voltage_grade y) <= rank (voltage_grade x).
Proof.
  intros Hxy.
  assert (Hup : forall c, gt x c = true -> gt y c = true).
  { intros c H. unfold gt in *. apply (lt_le_trans c x y H Hxy). }
  assert (Hdown : forall c, lt y c = true -> lt x c = true).
  { intros c H. apply (le_lt_trans x y c Hxy H). }
  destruct (critical_crosses_warning y y x) as (Ht & Hv & Hb).
  unfold temperature_grade, vibration_grade, voltage_grade, grade.
  split; [|split].
  - destruct (gt x (of_Z 110)) eqn:E1;
      [rewrite (Hup _ E1); cbn; lia|].
    destruct (gt x (of_Z 95)) eqn:E2; [|cbn; lia].
    rewrite (Hup _ E2). destruct (gt y (of_Z 110)); cbn; lia.
  - destruct (gt x (dyadic 17 (-1))) eqn:E1;
      [rewrite (Hup _ E1); cbn; lia|].
    destruct (gt x (of_Z 7)) eqn:E2; [|cbn; lia].
    rewrite (Hup _ E2). destruct (gt y (dyadic 17 (-1))); cbn; lia.
  - destruct (lt y (dyadic 21 (-1))) eqn:E1;
      [rewrite (Hdown _ E1); cbn; lia|].
    destruct (lt y (dyadic 23 (-1))) eqn:E2; [|cbn; lia].
    rewrite (Hdown _ E2). destruct (lt x (dyadic 21 (-1))); cbn; lia.
Qed.

Lemma reports_shown (sig : signal) (g : option severity) (lines : list str) :
  reports sig g lines -> severity_shown sig lines = rank g.
Proof.
  unfold severity_shown. destruct g as [sev|]; cbn [reports].
  - intros (line & -> & Hsev & Hsig). cbn [filter]. unfold about.
    rewrite Hsig.
    assert (Hself : match sig, sig with
                    | Temperature, Temperature | Vibration, Vibration
                    | Voltage, Voltage => true
                    | _, _ => false
                    end = true) by (destruct sig; reflexivity).
    rewrite Hself. cbn [map fold_right]. rewrite Hsev. apply Nat.max_0_r.
  - intros ->. reflexivity.
Qed.

(** What [check_thresholds] shows for a signal is that signal's grade. *)
Lemma severity_shown_by_check (temp vibration voltage : float) :
  let findings := snd (check_thresholds temp vibration voltage) in
  severity_shown Temperature findings = rank (temperature_grade temp)
  /\ severity_shown Vibration findings = rank (vibration_grade vibration)
  /\ severity_shown Voltage findings = rank (voltage_grade voltage).
Proof.
  cbv zeta. rewrite check_thresholds_split. cbn [snd].
  pose proof (temperature_lines_report temp) as Ht.
  pose proof (vibration_lines_report vibration) as Hv.
  pose proof (voltage_lines_report voltage) as Hb.
  split; [|split].
  - rewrite <- (reports_shown _ _ _ Ht). unfold severity_shown.
    rewrite !filter_app.
    rewrite (reports_about Vibration Temperature _ _ Hv) by discriminate.
    rewrite (reports_about Voltage Temperature _ _ Hb) by discriminate.
    rewrite !app_nil_r. reflexivity.
  - rewrite <- (reports_shown _ _ _ Hv). unfold severity_shown.
    rewrite !filter_app.
    rewrite (reports_about Temperature Vibration _ _ Ht) by discriminate.
    rewrite (reports_about Voltage Vibration _ _ Hb) by discriminate.
    rewrite app_nil_r. reflexivity.
  - rewrite <- (reports_shown _ _ _ Hb). unfold severity_shown.
    rewrite !filter_app.
    rewrite (reports_about Temperature Voltage _ _ Ht) by discriminate.
    rewrite (reports_about Vibration Voltage _ _ Hv) by discriminate.
    reflexivity.
Qed.

Lemma is_critical_by_tests (temp vibration voltage : float) :
  fst (check_thresholds temp vibration voltage) =
  gt temp (of_Z 110) || gt vibration (dyadic 17 (-1))
  || lt voltage (dyadic 21 (-1)).
Proof.
  rewrite check_thresholds_split. cbn [fst].
  unfold temperature_grade, vibration_grade, voltage_grade, grade.
  destruct (gt temp (of_Z 110)), (gt temp (of_Z 95)),
    (gt vibration (dyadic 17 (-1))), (gt vibration (of_Z 7)),
    (lt voltage (dyadic 21 (-1))), (lt voltage (dyadic 23 (-1)));
    reflexivity.
Qed.

(** X8. [check_thresholds] follows the values it is given.  With the
    other two signals unchanged, a temperature that is at least as high
    is shown at least as severe (no finding, then warning, then critical)
    and a critical verdict stays critical; the same holds for a vibration
    that is at least as high and for a voltage that is at least as low. *)
Theorem check_thresholds_is_monotone (x y : float) :
  le x y = true ->
  (forall vibration voltage,
      severity_shown Temperature (snd (check_thresholds x vibration voltage))
      <= severity_shown Temperature
           (snd (check_thresholds y vibration voltage))
      /\ (fst (check_thresholds x vibration voltage) = true ->
          fst (check_thresholds y vibration voltage) = true))
  /\ (forall temp voltage,
        severity_shown Vibration (snd (check_thresholds temp x voltage))
        <= severity_shown Vibration (snd (check_thresholds temp y voltage))
        /\ (fst (check_thresholds temp x voltage) = true ->
            fst (check_thresholds temp y voltage) = true))
  /\ (forall temp vibration,
        severity_shown Voltage (snd (check_thresholds temp vibration y))
        <= severity_shown Voltage (snd (check_thresholds temp vibration x))
        /\ (fst (check_thresholds temp vibration y) = true ->
            fst (check_thresholds temp vibration x) = true)).
Proof.
  intros Hxy.
  destruct (grade_follows_value x y Hxy) as (Gt & Gv & Gb).
  assert (Hup : forall c, gt x c = true -> gt y c = true).
  { intros c H. unfold gt in *. apply (lt_le_trans c x y H Hxy). }
  assert (Hdown : forall c, lt y c = true -> lt x c = true).
  { intros c H. apply (le_lt_trans x y c Hxy H). }
  split; [|split].
  - intros vibration voltage.
    destruct (severity_shown_by_check x vibration voltage) as (-> & _ & _).
    destruct (severity_shown_by_check y vibration voltage) as (-> & _ & _).
    split; [exact Gt|]. rewrite !is_critical_by_tests.
    destruct (gt x (of_Z 110)) eqn:E; [rewrite (Hup _ E)|];
      destruct (gt y (of_Z 110)), (gt vibration (dyadic 17 (-1))),
        (lt voltage (dyadic 21 (-1))); cbn [orb]; congruence.
  - intros temp voltage.
    destruct (severity_shown_by_check temp x voltage) as (_ & -> & _).
    destruct (severity_shown_by_check temp y voltage) as (_ & -> & _).
    split; [exact Gv|]. rewrite !is_critical_by_tests.
    destruct (gt x (dyadic 17 (-1))) eqn:E; [rewrite (Hup _ E)|];
      destruct (gt y (dyadic 17 (-1))), (gt temp (of_Z 110)),
        (lt voltage (dyadic 21 (-1))); cbn [orb]; congruence.
  - intros temp vibration.
    destruct (severity_shown_by_check temp vibration x) as (_ & _ & ->).
    destruct (severity_shown_by_check temp vibration y) as (_ & _ & ->).
    split; [exact Gb|]. rewrite !is_critical_by_tests.
    destruct (lt y (dyadic 21 (-1))) eqn:E; [rewrite (Hdown _ E)|];
      destruct (lt x (dyadic 21 (-1))), (gt temp (of_Z 110)),
        (gt vibration (dyadic 17 (-1))); cbn [orb]; congruence.
Qed.

Lemma check_thresholds_is_monotone_witness :
  severity_shown Temperature
    (snd (check_thresholds (of_Z 100) (of_Z 2) (of_Z 13)))
  <= severity_shown Temperature
       (snd (check_thresholds (of_Z 120) (of_Z 2) (of_Z 13))).
Proof.
  destruct (check_thresholds_is_monotone (of_Z 100) (of_Z 120))
    as (H & _); [evaluate|].
  apply (H (of_Z 2) (of_Z 13)).
Defined.

(** ** More about the fallbacks *)

(** X9. The diagnosis fallback and the classifier agree on what is
    critical: the fallback gives its generic "multiple anomalies" text
    exactly when the verdict is not critical, even when a single warning is
    all there is, and its overheating text exactly when the temperature is
    critical. *)
Theorem fallback_diagnosis_follows_verdict
    (temp vibration voltage : float) (anomalies : list str) :
  let diagnosis :=
    mock_mechanic_diagnosis temp vibration voltage anomalies in
  (diagnosis =
   u "🔧 Diagnosis: Multiple system anomalies detected. Recommend comprehensive diagnostic scan and OBD-II analysis."
   <-> fst (check_thresholds temp vibration voltage) = false)
  /\ (diagnosis =
      u "🔧 Diagnosis: Engine overheating detected. Primary suspect: Failed thermostat or water pump failure. Recommend immediate inspection of cooling system. Risk Level: CRITICAL"
      <-> gt temp (of_Z 110) = true).
Proof.
  cbv zeta. rewrite check_thresholds_split. cbn [fst].
  unfold mock_mechanic_diagnosis, temperature_grade, vibration_grade,
    voltage_grade, grade.
  assert (H1 : u "🔧 Diagnosis: Engine overheating detected. Primary suspect: Failed thermostat or water pump failure. Recommend immediate inspection of cooling system. Risk Level: CRITICAL"
               <> u "🔧 Diagnosis: Multiple system anomalies detected. Recommend comprehensive diagnostic scan and OBD-II analysis.")
    by (vm_compute; discriminate).
  assert (H2 : u "🔧 Diagnosis: Excessive vibration indicates mechanical imbalance. Likely causes: Worn engine mounts, bearing issues, or fuel injection problem. Recommend alignment check and engine inspection."
               <> u "🔧 Diagnosis: Multiple system anomalies detected. Recommend comprehensive diagnostic scan and OBD-II analysis.")
    by (vm_compute; discriminate).
  assert (H3 : u "🔧 Diagnosis: Battery voltage critically low. Suspect: Alternator malfunction or battery cell degradation. Vehicle electrical systems at risk. Recommend battery/alternator test."
               <> u "🔧 Diagnosis: Multiple system anomalies detected. Recommend comprehensive diagnostic scan and OBD-II analysis.")
    by (vm_compute; discriminate).
  assert (H4 : u "🔧 Diagnosis: Excessive vibration indicates mechanical imbalance. Likely causes: Worn engine mounts, bearing issues, or fuel injection problem. Recommend alignment check and engine inspection."
               <> u "🔧 Diagnosis: Engine overheating detected. Primary suspect: Failed thermostat or water pump failure. Recommend immediate inspection of cooling system. Risk Level: CRITICAL")
    by (vm_compute; discriminate).
  assert (H5 : u "🔧 Diagnosis: Battery voltage critically low. Suspect: Alternator malfunction or battery cell degradation. Vehicle electrical systems at risk. Recommend battery/alternator test."
               <> u "🔧 Diagnosis: Engine overheating detected. Primary suspect: Failed thermostat or water pump failure. Recommend immediate inspection of cooling system. Risk Level: CRITICAL")
    by (vm_compute; discriminate).
  revert H1 H2 H3 H4 H5.
  generalize (u "🔧 Diagnosis: Engine overheating detected. Primary suspect: Failed thermostat or water pump failure. Recommend immediate inspection of cooling system. Risk Level: CRITICAL").
  generalize (u "🔧 Diagnosis: Multiple system anomalies detected. Recommend comprehensive diagnostic scan and OBD-II analysis.").
  generalize (u "🔧 Diagnosis: Excessive vibration indicates mechanical imbalance. Likely causes: Worn engine mounts, bearing issues, or fuel injection problem. Recommend alignment check and engine inspection.").
  generalize (u "🔧 Diagnosis: Battery voltage critically low. Suspect: Alternator malfunction or battery cell degradation. Vehicle electrical systems at risk. Recommend battery/alternator test.").
  intros battery shaking generic overheating H1 H2 H3 H4 H5.
  destruct (gt temp (of_Z 110)); [|destruct (gt temp (of_Z 95))];
    (destruct (gt vibration (dyadic 17 (-1)));
       [|destruct (gt vibration (of_Z 7))]);
    (destruct (lt voltage (dyadic 21 (-1)));
       [|destruct (lt voltage (dyadic 23 (-1)))]);
    cbn [critical orb];
    (split; split; intros H); congruence.
Qed.

Lemma fallback_diagnosis_follows_verdict_witness :
  mock_mechanic_diagnosis (of_Z 100) (of_Z 2) (of_Z 13) [] =
  u "🔧 Diagnosis: Multiple system anomalies detected. Recommend comprehensive diagnostic scan and OBD-II analysis.".
Proof.
  destruct (fallback_diagnosis_follows_verdict
              (of_Z 100) (of_Z 2) (of_Z 13) []) as [[_ H] _].
  apply H. evaluate.
Defined.

(** X10. The manufacturing fallback always holds its three keys, each
    with a string that is not "N/A", so reading a field as [main] does
    returns what the record holds and never the "N/A" default.  The record
    is the thermal one (cause, cluster and suggestion) exactly when the
    temperature is above 100 and the electrical one otherwise, whatever
    vibration and voltage are. *)
Theorem fallback_record_is_complete (temp vibration voltage : float) :
  let record := mock_manufacturing_feedback temp vibration voltage in
  (exists cause cluster suggestion,
      (get record (u "Root_Cause") = Some (JString cause)
       /\ get record (u "Defect_Cluster_ID") = Some (JString cluster)
       /\ get record (u "Design_Improvement_Suggestion")
          = Some (JString suggestion))
      /\ (get_or_na record (u "Root_Cause") = Ok (JString cause)
          /\ get_or_na record (u "Defect_Cluster_ID") = Ok (JString cluster)
          /\ get_or_na record (u "Design_Improvement_Suggestion")
             = Ok (JString suggestion))
      /\ (cause <> u "N/A" /\ cluster <> u "N/A" /\ suggestion <> u "N/A")
      /\ (gt temp (of_Z 100) = true ->
          cause = u "Thermal management system degradation"
          /\ cluster = u "CLUSTER_THERM_001"
          /\ suggestion = u "Upgrade coolant circulation pump capacity and add secondary thermal sensor redundancy")
      /\ (gt temp (of_Z 100) = false ->
          cause = u "Electrical subsystem performance drift"
          /\ cluster = u "CLUSTER_ELEC_002"
          /\ suggestion = u "Implement higher-capacity alternator and battery with integrated voltage regulation module")
      /\ (cluster = u "CLUSTER_THERM_001" <-> gt temp (of_Z 100) = true)
      /\ (cluster = u "CLUSTER_ELEC_002" <-> gt temp (of_Z 100) = false))
  /\ (forall vibration' voltage',
        mock_manufacturing_feedback temp vibration' voltage' = record).
Proof.
  cbv zeta. split; [|reflexivity].
  unfold mock_manufacturing_feedback.
  assert (Hne : u "CLUSTER_THERM_001" <> u "CLUSTER_ELEC_002")
    by (vm_compute; discriminate).
  destruct (gt temp (of_Z 100)).
  - exists (u "Thermal management system degradation"),
      (u "CLUSTER_THERM_001"),
      (u "Upgrade coolant circulation pump capacity and add secondary thermal sensor redundancy").
    split; [split; [evaluate|split; evaluate]|].
    split; [split; [evaluate|split; evaluate]|].
    split; [split; [|split]; vm_compute; discriminate|].
    split; [intros _; split; [|split]; reflexivity|].
    split; [discriminate|].
    split; split; congruence.
  - exists (u "Electrical subsystem performance drift"),
      (u "CLUSTER_ELEC_002"),
      (u "Implement higher-capacity alternator and battery with integrated voltage regulation module").
    split; [split; [evaluate|split; evaluate]|].
    split; [split; [evaluate|split; evaluate]|].
    split; [split; [|split]; vm_compute; discriminate|].
    split; [discriminate|].
    split; [intros _; split; [|split]; reflexivity|].
    split; split; congruence.
Qed.

(** ** What the page reads off the manufacturing result *)

(** X11. The manufacturing stage does not check that the parsed response
    is an object: whatever value the cleaned text parses to is returned.
    Reading an insight off an object gives the field or "N/A"; reading it
    off any other value, an array say, raises, as a value that is not a
    dict has no [get]. *)
Theorem parsed_value_need_not_be_a_record
    (J : JsonLib) (st : Session) (temp vibration voltage : float)
    (anomalies : list str) (text : str) (value : json) :
  gemini_client_ready st = true ->
  generate_content st gemini_model
    (manufacturing_prompt J temp vibration voltage anomalies)
  = Ok (Truthy (Ok text)) ->
  loads J (clean_response text) = Ok value ->
  call_gemini_manufacturing J st temp vibration voltage anomalies
  = (Ok value, [])
  /\ (forall key,
        (forall fields, value <> JObject fields) ->
        get_or_na value key =
        Raise (OtherError (u "'" ++ type_name value
                           ++ u "' object has no attribute 'get'")))
  /\ (forall key fields,
        value = JObject fields ->
        get_or_na value key =
        Ok (match get value key with
            | Some field => field
            | None => JString (u "N/A")
            end)).
Proof.
  intros Hon Hask Hparse.
  rewrite (manufacturing_on_text J st _ _ _ _ _ Hon Hask).
  unfold loads_or. rewrite Hparse. split; [reflexivity|]. split.
  - intros key Hno. destruct value; try reflexivity.
    elim (Hno fields). reflexivity.
  - intros key fields ->. reflexivity.
Qed.

Lemma parsed_value_need_not_be_a_record_witness :
  call_gemini_manufacturing json_array_stub
    (answering (Ok (Truthy (Ok (u "```json[]```")))))
    (of_Z 115) (of_Z 2) (of_Z 13) []
  = (Ok (JArray []), [])
  /\ get_or_na (JArray []) (u "Root_Cause") =
     Raise (OtherError (u "'list' object has no attribute 'get'")).
Proof.
  destruct (parsed_value_need_not_be_a_record json_array_stub
              (answering (Ok (Truthy (Ok (u "```json[]```")))))
              (of_Z 115) (of_Z 2) (of_Z 13) [] (u "```json[]```")
              (JArray []) eq_refl eq_refl ltac:(evaluate))
    as (Hcall & Hget & _).
  split; [exact Hcall|].
  rewrite (Hget (u "Root_Cause")) by discriminate. evaluate.
Defined.

(** ** More about the clean-up *)

Lemma replace_from_untouched (old new s : str) :
  contains old s = false -> replace_from old new 0 s = s.
Proof.
  induction s as [|c s IH]; [reflexivity|].
  cbn [contains]. intros H. apply orb_false_elim in H. destruct H as [H1 H2].
  cbn [replace_from]. rewrite H1, (IH H2). reflexivity.
Qed.

Lemma lstrip_head (s : str) (c : char) (rest : str) :
  lstrip s = c :: rest -> isspace c = false.
Proof.
  induction s as [|a s IH]; cbn [lstrip]; [discriminate|].
  destruct (isspace a) eqn:E; [exact IH|].
  intros H. injection H as <- _. exact E.
Qed.

Lemma lstrip_done (s : str) (c : char) :
  isspace c = false -> lstrip (c :: s) = c :: s.
Proof. intros H. cbn [lstrip]. rewrite H. reflexivity. Qed.

Lemma strip_idempotent (s : str) : strip (strip s) = strip s.
Proof.
  unfold strip.
  assert (H : lstrip (rstrip (lstrip s)) = rstrip (lstrip s)).
  { destruct (lstrip s) as [|c rest] eqn:E; [reflexivity|].
    apply lstrip_head in E.
    change (c :: rest) with (([] ++ [c]) ++ rest).
    rewrite rstrip_after by exact E. cbn [app].
    apply lstrip_done. exact E. }
  rewrite H. unfold rstrip. rewrite rev_involutive.
  assert (Hl : forall t, lstrip (lstrip t) = lstrip t).
  { intros t. destruct (lstrip t) as [|c rest] eqn:E; [reflexivity|].
    apply lstrip_done. apply (lstrip_head t c rest E). }
  rewrite Hl. reflexivity.
Qed.

(** X12. Cleaning is idempotent: a cleaned response text has no marker
    and no outer white space left, so cleaning it again returns it
    unchanged. *)
Theorem clean_response_idempotent (text : str) :
  clean_response (clean_response text) = clean_response text.
Proof.
  destruct (clean_response_free text) as [Hf Hj].
  unfold clean_response at 1.
  rewrite replace_fence_json, replace_fence.
  rewrite fence_json_chars in Hj. rewrite fence_chars in Hf.
  rewrite (replace_from_untouched _ [] _ Hj).
  rewrite (replace_from_untouched _ [] _ Hf).
  unfold clean_response. apply strip_idempotent.
Qed.

(** X13. A response text without a backquote is only trimmed: nothing
    inside it is touched on its way to the parser. *)
Theorem clean_response_without_backquote (text : str) :
  ~ In 96%N text -> clean_response text = strip text.
Proof.
  intros H. unfold clean_response.
  rewrite replace_fence_json, replace_fence.
  rewrite <- (app_nil_r text) at 1.
  rewrite (unjson_copy text [] H). cbn [replace_from].
  rewrite (unfence_copy text [] H). cbn [replace_from].
  rewrite !app_nil_r. reflexivity.
Qed.

Lemma clean_response_without_backquote_witness :
  clean_response (nl ++ u "{ }" ++ nl) = u "{ }".
Proof.
  rewrite (clean_response_without_backquote (nl ++ u "{ }" ++ nl)).
  - evaluate.
  - vm_compute. intros H.
    repeat (destruct H as [H|H]; [discriminate H|]). exact H.
Defined.

(** ** Warnings *)



(** ** More about the simulator *)

(** X15. The simulator has no handler of its own: it returns a reading
    exactly when the random source yields all three samples, and when a
    draw raises, that exception escapes and the later draws are not
    made. *)
Theorem generate_sensor_data_needs_three_samples
    (S : Type) (np_random : RandomSource S)
    (base_temp base_vibration base_voltage noise_level : float) (s0 : S) :
  let run := generate_sensor_data np_random base_temp base_vibration
               base_voltage noise_level s0 in
  ((exists reading, run = Ok reading) <->
   exists n1 s1 n2 s2 n3 s3,
     normal np_random (of_Z 0) noise_level s0 = Ok (n1, s1)
     /\ normal np_random (of_Z 0) (mul noise_level f0_1) s1 = Ok (n2, s2)
     /\ normal np_random (of_Z 0) (mul noise_level f0_05) s2 = Ok (n3, s3))
  /\ (forall e,
        normal np_random (of_Z 0) noise_level s0 = Raise e ->
        run = Raise e)
  /\ (forall e n1 s1,
        normal np_random (of_Z 0) noise_level s0 = Ok (n1, s1) ->
        normal np_random (of_Z 0) (mul noise_level f0_1) s1 = Raise e ->
        run = Raise e)
  /\ (forall e n1 s1 n2 s2,
        normal np_random (of_Z 0) noise_level s0 = Ok (n1, s1) ->
        normal np_random (of_Z 0) (mul noise_level f0_1) s1 = Ok (n2, s2) ->
        normal np_random (of_Z 0) (mul noise_level f0_05) s2 = Raise e ->
        run = Raise e).
Proof.
  cbv zeta. unfold generate_sensor_data.
  split; [|split; [|split]].
  - destruct (normal np_random (of_Z 0) noise_level s0)
      as [[n1 s1]|e1] eqn:H1; cbn [bind].
    2:{ split; [intros [r Hr]; discriminate Hr|].
        intros (? & ? & ? & ? & ? & ? & H & _). discriminate H. }
    destruct (normal np_random (of_Z 0) (mul noise_level f0_1) s1)
      as [[n2 s2]|e2] eqn:H2; cbn [bind].
    2:{ split; [intros [r Hr]; discriminate Hr|].
        intros (? & ? & ? & ? & ? & ? & H & H' & _).
        injection H as <- <-. rewrite H2 in H'. discriminate H'. }
    destruct (normal np_random (of_Z 0) (mul noise_level f0_05) s2)
      as [[n3 s3]|e3] eqn:H3; cbn [bind].
    2:{ split; [intros [r Hr]; discriminate Hr|].
        intros (? & ? & ? & ? & ? & ? & H & H' & H'').
        injection H as <- <-. rewrite H2 in H'. injection H' as <- <-.
        rewrite H3 in H''. discriminate H''. }
    split; [|intros _; eexists; reflexivity].
    intros _. exists n1, s1, n2, s2, n3, s3. auto.
  - intros e ->. reflexivity.
  - intros e n1 s1 -> H2. cbn [bind]. rewrite H2. reflexivity.
  - intros e n1 s1 n2 s2 -> H2 H3. cbn [bind]. rewrite H2. cbn [bind].
    rewrite H3. reflexivity.
Qed.

Lemma generate_sensor_data_needs_three_samples_witness :
  generate_sensor_data replay (of_Z 90) (of_Z 3) (of_Z 13)
    default_noise_level [of_Z 1]
  = Raise (ValueError (u "no sample left")).
Proof.
  destruct (generate_sensor_data_needs_three_samples (list float) replay
              (of_Z 90) (of_Z 3) (of_Z 13) default_noise_level [of_Z 1])
    as (_ & _ & H & _).
  apply (H _ (of_Z 1) []); reflexivity.
Defined.


Lemma fallback_record_is_complete_witness :
  get_or_na (mock_manufacturing_feedback (of_Z 90) (of_Z 9) (of_Z 10))
    (u "Defect_Cluster_ID") = Ok (JString (u "CLUSTER_ELEC_002")).
Proof.
  destruct (fallback_record_is_complete (of_Z 90) (of_Z 9) (of_Z 10))
    as ((cause & cluster & suggestion & _ & (_ & Hid & _) & _ & _ & Helec & _)
        & _).
  rewrite Hid. destruct (Helec ltac:(evaluate)) as (_ & -> & _).
  reflexivity.
Defined.

(** ** More about the service slots *)

Lemma plus_ok (t delta : Z) (r : datetime) :
  plus t delta = Ok r -> r = (t + delta)%Z /\ in_range (t + delta)%Z = true.
Proof.
  unfold plus. destruct (in_range (t + delta)%Z); [|discriminate].
  intros H. injection H as <-. split; reflexivity.
Qed.

(** What the generator returns when it returns. *)
Lemma slots_when_ok (now : datetime) (labels : list str) :
  get_available_service_slots now = Ok labels ->
  labels = map strftime_slot (slot_times now)
  /\ in_range (now + timedelta_hours 120)%Z = true.
Proof.
  unfold get_available_service_slots, slot_times.
  change (range 1 6) with [1; 2; 3; 4; 5]%Z. cbn [fold_left bind map].
  change (24 * 1)%Z with 24%Z. change (24 * 2)%Z with 48%Z.
  change (24 * 3)%Z with 72%Z. change (24 * 4)%Z with 96%Z.
  change (24 * 5)%Z with 120%Z.
  unfold plus.
  destruct (in_range (now + timedelta_hours 24)%Z); cbn [bind];
    [|discriminate].
  destruct (in_range (now + timedelta_hours 48)%Z); cbn [bind];
    [|discriminate].
  destruct (in_range (now + timedelta_hours 72)%Z); cbn [bind];
    [|discriminate].
  destruct (in_range (now + timedelta_hours 96)%Z); cbn [bind];
    [|discriminate].
  destruct (in_range (now + timedelta_hours 120)%Z); cbn [bind app];
    [|discriminate].
  intros H. injection H as <-. split; reflexivity.
Qed.

(** X16. The slot generator is all or nothing: as soon as the fifth slot
    would fall outside the [datetime] range the call raises OverflowError,
    also when the first slots would have been fine; no shorter list is
    ever returned. *)
Theorem slots_all_or_nothing (now : datetime) :
  (in_range (now + timedelta_hours 120)%Z = false ->
   get_available_service_slots now =
   Raise (OverflowError (u "date value out of range")))
  /\ (forall labels,
        get_available_service_slots now = Ok labels ->
        List.length labels = 5).
Proof.
  split.
  - intros Hlast. unfold get_available_service_slots.
    change (range 1 6) with [1; 2; 3; 4; 5]%Z. cbn [fold_left bind map].
    change (24 * 1)%Z with 24%Z. change (24 * 2)%Z with 48%Z.
    change (24 * 3)%Z with 72%Z. change (24 * 4)%Z with 96%Z.
    change (24 * 5)%Z with 120%Z.
    unfold plus. rewrite Hlast.
    destruct (in_range (now + timedelta_hours 24)%Z); cbn [bind];
      [|reflexivity].
    destruct (in_range (now + timedelta_hours 48)%Z); cbn [bind];
      [|reflexivity].
    destruct (in_range (now + timedelta_hours 72)%Z); cbn [bind];
      [|reflexivity].
    destruct (in_range (now + timedelta_hours 96)%Z); cbn [bind];
      reflexivity.
  - intros labels H. apply slots_when_ok in H. destruct H as [-> _].
    reflexivity.
Qed.

Lemma slots_all_or_nothing_witness :
  get_available_service_slots (of_civil 9999 12 27 0 0 0) =
  Raise (OverflowError (u "date value out of range")).
Proof.
  apply (slots_all_or_nothing (of_civil 9999 12 27 0 0 0)). evaluate.
Defined.

Lemma strftime_slot_parts (t : datetime) :
  exists date,
    strftime_slot t =
    slot_weekday t ++ u ", " ++ date ++ u " @ " ++ slot_clock t.
Proof.
  unfold strftime_slot, slot_weekday, slot_clock, civil.
  cbv beta iota zeta.
  match goal with
  | |- context [month_name ?m ++ u " " ++ two ?d ++ _] =>
    exists (month_name m ++ u " " ++ two d)
  end.
  rewrite <- !app_assoc. reflexivity.
Qed.

Lemma slot_clock_next_days (t k : Z) :
  slot_clock (t + timedelta_hours (24 * k))%Z = slot_clock t.
Proof.
  unfold slot_clock, timedelta_hours.
  replace (t + 24 * k * us_per_hour)%Z with (t + k * us_per_day)%Z
    by (unfold us_per_day; ring).
  rewrite Z.mod_add by (vm_compute; discriminate).
  replace (t + k * us_per_day)%Z with (t + (24 * k) * us_per_hour)%Z
    by (unfold us_per_day; ring).
  rewrite Z.mod_add by (vm_compute; discriminate).
  reflexivity.
Qed.

Lemma slot_weekday_next_days (t k : Z) :
  slot_weekday (t + timedelta_hours (24 * k))%Z =
  day_name ((((t / us_per_day) mod 7) + k) mod 7)%Z.
Proof.
  unfold slot_weekday, timedelta_hours.
  replace (t + 24 * k * us_per_hour)%Z with (t + k * us_per_day)%Z
    by (unfold us_per_day; ring).
  rewrite Z.div_add by (vm_compute; discriminate).
  rewrite Zplus_mod_idemp_l. reflexivity.
Qed.

(** Five days running have five different weekday names. *)
Lemma five_weekdays_differ (r : Z) (x1 x2 x3 x4 x5 : str) :
  (0 <= r < 7)%Z ->
  NoDup [ day_name ((r + 1) mod 7)%Z ++ x1; day_name ((r + 2) mod 7)%Z ++ x2;
          day_name ((r + 3) mod 7)%Z ++ x3; day_name ((r + 4) mod 7)%Z ++ x4;
          day_name ((r + 5) mod 7)%Z ++ x5 ].
Proof.
  intros Hr.
  assert (Hcases : (r = 0 \/ r = 1 \/ r = 2 \/ r = 3 \/ r = 4 \/ r = 5
                    \/ r = 6)%Z) by lia.
  clear Hr.
  destruct Hcases as [->|[->|[->|[->|[->|[->| ->]]]]]]; vm_compute;
    repeat (apply NoDup_cons; [cbn [In]; intros H;
      repeat (destruct H as [H|H]; [congruence|]); exact H|]);
    apply NoDup_nil.
Qed.

(** X17. The labels returned are five different texts, each opening with
    the weekday of its day and each showing the clock time of [now]: the
    slots are the same time of day on five days running, and a label picks
    out one slot. *)
Theorem slot_labels_are_distinct (now : datetime) (labels : list str) :
  get_available_service_slots now = Ok labels ->
  NoDup labels
  /\ (forall label,
        In label labels ->
        exists front, label = front ++ u " @ " ++ slot_clock now)
  /\ (forall i label,
        nth_error labels i = Some label ->
        exists rest,
          label =
          day_name ((((now / us_per_day) mod 7) + Z.of_nat (S i)) mod 7)%Z
          ++ rest).
Proof.
  intros H. apply slots_when_ok in H. destruct H as [-> _].
  unfold slot_times. change (range 1 6) with [1; 2; 3; 4; 5]%Z.
  cbn [map].
  destruct (strftime_slot_parts (now + timedelta_hours (24 * 1))%Z)
    as [d1 E1].
  destruct (strftime_slot_parts (now + timedelta_hours (24 * 2))%Z)
    as [d2 E2].
  destruct (strftime_slot_parts (now + timedelta_hours (24 * 3))%Z)
    as [d3 E3].
  destruct (strftime_slot_parts (now + timedelta_hours (24 * 4))%Z)
    as [d4 E4].
  destruct (strftime_slot_parts (now + timedelta_hours (24 * 5))%Z)
    as [d5 E5].
  rewrite slot_clock_next_days, slot_weekday_next_days in E1, E2, E3, E4, E5.
  rewrite E1, E2, E3, E4, E5. clear E1 E2 E3 E4 E5.
  set (r := ((now / us_per_day) mod 7)%Z).
  assert (Hr : (0 <= r < 7)%Z) by (apply Z.mod_pos_bound; lia).
  split; [apply five_weekdays_differ; exact Hr|]. split.
  - intros label Hin. cbn [In] in Hin.
    destruct Hin as [<-|[<-|[<-|[<-|[<-|[]]]]]];
      eexists; rewrite !app_assoc; reflexivity.
  - intros i label Hi.
    destruct i as [|[|[|[|[|i]]]]]; cbn [nth_error] in Hi;
      try (destruct i; discriminate Hi);
      injection Hi as <-; eexists; reflexivity.
Qed.

Lemma slot_labels_are_distinct_witness :
  NoDup [u "Tue, Feb 27 @ 09:30 AM"; u "Wed, Feb 28 @ 09:30 AM";
         u "Thu, Feb 29 @ 09:30 AM"; u "Fri, Mar 01 @ 09:30 AM";
         u "Sat, Mar 02 @ 09:30 AM"].
Proof.
  apply (slot_labels_are_distinct (of_civil 2024 2 26 9 30 0)).
  evaluate.
Defined.
